(** * A course catalogue kept in a JSON file: the handlers of [main.py]

    The program is a small FastAPI service.  Its state is the file system
    (the table file [courses.json] and the uploaded PDF files) and the wall
    clock.  Every handler reads the whole table, works on the list in
    memory and, when it changes something, writes the whole table back.

    The embedding follows the source function by function.  Handlers are
    computations in a state-and-exception monad over [world]; a Python
    exception is a value of [exn], and the changes made before it is raised
    stay in the world, as they do on disk.  Paths are those of a POSIX
    system.  The HTTP layer (routing, validation of requests and responses)
    is not part of the embedding. *)

From Stdlib Require Import Strings.Ascii Strings.String Strings.Byte.
From stdpp Require Import base option list strings gmap.

Set Warnings "-register-all".
Local Open Scope string_scope.

(** ** Python values *)

(** What [json.load] returns.  Numbers are kept to the integers: the
    program never computes with a number of the table.  A [JDict] lists its
    items in insertion order, which [json.dump] and [json.load] keep; its
    keys are distinct, so the first binding of a key is its only one. *)
Inductive json : Type :=
| JNull
| JBool (b : bool)
| JInt (n : Z)
| JStr (s : string)
| JList (xs : list json)
| JDict (items : list (string * json)).

(** A naive [datetime], as [datetime.now()] returns it. *)
Record datetime : Type := Datetime {
  year : N;
  month : N;
  day : N;
  hour : N;
  minute : N;
  second : N;
  microsecond : N
}.

(** A value held by an attribute of a [Course] object or by an entry of
    [course.dict()]: a [datetime] object, or a plain value as it came out of
    the table. *)
Inductive pyval : Type :=
| Plain (j : json)
| Moment (t : datetime).

(** [class Course(BaseModel)].  The four [str] fields are validated when the
    object is built.  The two timestamps are declared [datetime], but
    pydantic does not validate an assignment to an attribute, and
    [update_course] assigns [course["created_at"]] as it is in the table, so
    the attribute holds a [pyval]. *)
Record Course : Type := mkCourse {
  name : string;
  description : string;
  pdf_path : string;
  created_at : pyval;
  updated_at : pyval;
  level : string
}.

(** An element of the list [courses] in memory: a dictionary read from the
    table, or a [Course] object put there by a handler. *)
Inductive item : Type :=
| Raw (j : json)
| Obj (c : Course).

(** An element of [courses_data] in [write_courses]. *)
Inductive data : Type :=
| DJson (j : json)
| DDict (items : list (string * pyval)).

(** [course.dict()]: the fields in the order of their declaration. *)
Definition Course_dict (c : Course) : list (string * pyval) :=
  [ ("name", Plain (JStr (name c)));
    ("description", Plain (JStr (description c)));
    ("pdf_path", Plain (JStr (pdf_path c)));
    ("created_at", created_at c);
    ("updated_at", updated_at c);
    ("level", Plain (JStr (level c))) ].

(** ** Exceptions *)

Inductive exn : Type :=
| HTTPException (status_code : Z) (detail : string)
| JSONDecodeError
| UnicodeDecodeError
| FileNotFoundError
| IsADirectoryError
| KeyError (key : string)
| IndexError
| AttributeError
| TypeError.

Inductive result (A : Type) : Type :=
| Ok (a : A)
| Raise (e : exn).
Arguments Ok {A} a.
Arguments Raise {A} e.

(** The error kinds of the specification, as the boundary maps them. *)
Definition InvalidInput (e : exn) : Prop :=
  match e with HTTPException 400 _ => True | _ => False end.

Definition NotFound (e : exn) : Prop :=
  match e with HTTPException 404 _ => True | _ => False end.

(** ** Strings and paths *)

(** [s.endswith(suffix)]: some tail of [s] is [suffix]. *)
Fixpoint endswith (s suffix : string) : bool :=
  String.eqb s suffix ||
  match s with
  | EmptyString => false
  | String _ s' => endswith s' suffix
  end.

(** [s.startswith(prefix)]. *)
Fixpoint startswith (s prefix : string) : bool :=
  match prefix with
  | EmptyString => true
  | String a prefix' =>
      match s with
      | EmptyString => false
      | String b s' => Ascii.eqb a b && startswith s' prefix'
      end
  end.

(** [os.path.join(a, b)] of [posixpath]: an absolute [b] replaces [a];
    otherwise [b] is appended, after a separator unless [a] is empty or
    already ends with one. *)
Definition os_path_join (a b : string) : string :=
  if startswith b "/" then b
  else if (String.eqb a "" || endswith a "/")%bool then a ++ b
  else a ++ "/" ++ b.

(** [s.split("/")]. *)
Fixpoint split_sep (s : string) : list string :=
  match s with
  | EmptyString => [""]
  | String c s' =>
      if Ascii.eqb c "/"%char then "" :: split_sep s'
      else match split_sep s' with
           | [] => [String c ""]
           | w :: ws => String c w :: ws
           end
  end.

(** [Path(p).name] of a POSIX path: the last component that is neither
    empty nor ["."], and the empty string when there is none. *)
Definition Path_name (p : string) : string :=
  List.last
    (List.filter (fun w => negb (String.eqb w "" || String.eqb w ".")) (split_sep p))
    "".

(** ** [str(datetime)] *)

Definition digit (n : N) : ascii :=
  ascii_of_N (48 + n mod 10).

(** [n] in decimal on [k] digits, padded with zeros. *)
Fixpoint pad (k : nat) (n : N) : string :=
  match k with
  | 0 => ""
  | S k' => pad k' (n / 10) ++ String (digit n) ""
  end.

(** [str(t)] is [t.isoformat(sep=" ")]: the microseconds are printed only
    when they are not zero. *)
Definition datetime_str (t : datetime) : string :=
  pad 4 (year t) ++ "-" ++ pad 2 (month t) ++ "-" ++ pad 2 (day t) ++ " " ++
  pad 2 (hour t) ++ ":" ++ pad 2 (minute t) ++ ":" ++ pad 2 (second t) ++
  if (microsecond t =? 0)%N then "" else "." ++ pad 6 (microsecond t).

(** ** The world *)

(** What a path names on disk.  A file that holds the text of a JSON
    document is kept as the value [json.load] reads from it, which is the
    value [json.dump] was given when it wrote the file ([indent=4] changes
    the layout of the text, not the document).  Any other regular file is
    kept as its bytes: an empty file, a truncated table, an uploaded PDF.
    A directory has no content. *)
Inductive file : Type :=
| Document (doc : json)
| Content (bytes : list byte)
| Directory.

(** The file system maps a path to what it names.  A path is looked up
    under the spelling the program uses for it: the file system is meant to
    list each file and each directory once, under the normal spelling of
    its path (relative to the working directory, without empty, ["."] or
    [".."] components), and the model does not identify another spelling of
    a path with it.  The clock gives the successive answers of
    [datetime.now()]; [ticks] counts the calls made so far. *)
Record world : Type := World {
  files : gmap string file;
  clock : nat → datetime;
  ticks : nat
}.

(** ** Computations *)

(** A computation runs in a world and ends with a value or an exception, in
    the world it has reached. *)
Definition exec (A : Type) : Type := world → result A * world.

#[export] Instance exec_ret : MRet exec := λ A a w, (Ok a, w).

#[export] Instance exec_bind : MBind exec := λ A B f m w,
  match m w with
  | (Ok a, w') => f a w'
  | (Raise e, w') => (Raise e, w')
  end.

Definition raise {A : Type} (e : exn) : exec A := λ w, (Raise e, w).

Definition lift {A : Type} (r : result A) : exec A := λ w, (r, w).

(** [try: body except json.JSONDecodeError: handler]. *)
Definition try_except_JSONDecodeError {A : Type} (body handler : exec A) : exec A :=
  λ w,
    match body w with
    | (Raise JSONDecodeError, w') => handler w'
    | r => r
    end.

(** ** The operations of the standard library that the handlers call *)

(** [os.path.exists(path)] for a path given as a string: something, a
    regular file or a directory, is listed under that spelling. *)
Definition os_path_exists (path : string) : exec bool :=
  λ w, (Ok (bool_decide (is_Some (files w !! path))), w).

(** The byte sequences that the UTF-8 decoder of [open(path, "r")]
    accepts (the service runs in a UTF-8 locale): well-formed sequences of
    one to four bytes, without overlong forms, surrogates or code points
    above U+10FFFF. *)
Definition in_range (lo hi : N) (b : byte) : bool :=
  ((lo <=? Byte.to_N b) && (Byte.to_N b <=? hi))%N.

Definition continuation (b : byte) : bool := in_range 128 191 b.

Fixpoint utf8_valid (bytes : list byte) : bool :=
  match bytes with
  | [] => true
  | b :: rest =>
      if in_range 0 127 b then utf8_valid rest
      else if in_range 194 223 b then
        match rest with
        | b1 :: rest' => continuation b1 && utf8_valid rest'
        | _ => false
        end
      else if in_range 224 239 b then
        match rest with
        | b1 :: b2 :: rest' =>
            (if in_range 224 224 b then in_range 160 191 b1
             else if in_range 237 237 b then in_range 128 159 b1
             else continuation b1)
            && continuation b2 && utf8_valid rest'
        | _ => false
        end
      else if in_range 240 244 b then
        match rest with
        | b1 :: b2 :: b3 :: rest' =>
            (if in_range 240 240 b then in_range 144 191 b1
             else if in_range 244 244 b then in_range 128 143 b1
             else continuation b1)
            && continuation b2 && continuation b3 && utf8_valid rest'
        | _ => false
        end
      else false
  end.

(** [with open(path, "r") as file: json.load(file)].  Opening a directory
    fails.  Bytes that are not UTF-8 cannot be read as text, and the read
    inside [json.load] raises [UnicodeDecodeError], which is not a
    [JSONDecodeError].  A file kept as bytes that are text is a file whose
    text is not a JSON document (one whose text is a JSON document is kept
    as a [Document]), and [json.load] rejects it. *)
Definition json_load (path : string) : exec json :=
  λ w,
    match files w !! path with
    | None => (Raise FileNotFoundError, w)
    | Some (Document doc) => (Ok doc, w)
    | Some (Content bytes) =>
        if utf8_valid bytes then (Raise JSONDecodeError, w)
        else (Raise UnicodeDecodeError, w)
    | Some Directory => (Raise IsADirectoryError, w)
    end.

(** What [json.dump(..., default=str)] makes of a value that is not JSON by
    itself: it calls [str] on it. *)
Definition default_str (v : pyval) : json :=
  match v with
  | Plain j => j
  | Moment t => JStr (datetime_str t)
  end.

(** The document that [json.dump(d, file, default=str, indent=4)] writes
    for an element [d] of [courses_data]. *)
Definition json_encode (d : data) : json :=
  match d with
  | DJson j => j
  | DDict items => JDict (List.map (λ kv, (fst kv, default_str (snd kv))) items)
  end.

(** [with open(path, "w") as file: json.dump(courses_data, file, default=str,
    indent=4)]: the file is replaced.  The write is taken to succeed: the
    failures of [open] (a directory at the path, permissions, a full disk)
    are not modelled. *)
Definition json_dump (courses_data : list data) (path : string) : exec unit :=
  λ w,
    (Ok tt,
     World (<[path := Document (JList (List.map json_encode courses_data))]> (files w))
           (clock w) (ticks w)).

(** [with open(path, "wb") as buffer: buffer.write(content)].  The write is
    taken to succeed, as for [json_dump]: [open] also fails when the
    directory of the path is missing or a name is too long, which the model
    does not tell.  The properties of [create_course] are stated for calls
    that succeed. *)
Definition write_bytes (path : string) (content : list byte) : exec unit :=
  λ w, (Ok tt, World (<[path := Content content]> (files w)) (clock w) (ticks w)).

(** [datetime.now()]: the next answer of the clock. *)
Definition datetime_now : exec datetime :=
  λ w, (Ok (clock w (ticks w)), World (files w) (clock w) (S (ticks w))).

(** [d[key]] for a value of the table. *)
Fixpoint dict_get (items : list (string * json)) (key : string) : result json :=
  match items with
  | [] => Raise (KeyError key)
  | (k, v) :: rest => if String.eqb k key then Ok v else dict_get rest key
  end.

Definition getitem (course : json) (key : string) : result json :=
  match course with
  | JDict items => dict_get items key
  | _ => Raise TypeError
  end.

(** [v == s] for a string [s]: a value of another type is never equal to
    a string. *)
Definition eq_str (v : json) (s : string) : bool :=
  match v with
  | JStr s' => String.eqb s' s
  | _ => false
  end.

(** The elements that [for course in courses] goes through: those of a
    list, the keys of a dictionary, the characters of a string; any other
    value is not iterable. *)
Definition iterate (courses : json) : result (list json) :=
  match courses with
  | JList xs => Ok xs
  | JDict items => Ok (List.map (λ kv, JStr (fst kv)) items)
  | JStr s => Ok (List.map (λ c, JStr (String c "")) (list_ascii_of_string s))
  | _ => Raise TypeError
  end.

(** [courses.append(course)]: only a list has the method. *)
Definition append (courses : json) (course : item) : result (list item) :=
  match courses with
  | JList xs => Ok (List.map Raw xs ++ [course])%list
  | _ => Raise AttributeError
  end.

(** [courses.pop(index)]. *)
Definition pop (courses : list json) (index : nat) : result (json * list json) :=
  match courses !! index with
  | Some course => Ok (course, delete index courses)
  | None => Raise IndexError
  end.

(** ** The store *)

Definition COURSES_FILE : string := "courses.json".
Definition UPLOAD_DIR : string := "pdf_files".

(** [read_courses()]. *)
Definition read_courses : exec json :=
  present ← os_path_exists COURSES_FILE;
  if (present : bool) then
    try_except_JSONDecodeError (json_load COURSES_FILE) (mret (JList []))
  else mret (JList []).

(** [write_courses(courses)]. *)
Definition write_courses (courses : list item) : exec unit :=
  present ← os_path_exists COURSES_FILE;
  (if (present : bool) then mret tt else json_dump [] COURSES_FILE);;
  let courses_data :=
    List.map (λ course,
                match course with
                | Obj c => DDict (Course_dict c)
                | Raw j => DJson j
                end) courses in
  json_dump courses_data COURSES_FILE.

(** The document that [write_courses] leaves in the table file. *)
Definition written (courses : list item) : json :=
  JList (List.map json_encode
           (List.map (λ course, match course with
                                | Obj c => DDict (Course_dict c)
                                | Raw j => DJson j
                                end) courses)).

(** ** The handlers *)

(** The uploaded file of a request: its name as the client sent it, and
    what [await file.read()] returns. *)
Record UploadFile : Type := mkUploadFile {
  filename : string;
  content : list byte
}.

(** [FileResponse(path, media_type=..., filename=...)]: the response sends
    the file at [path] under the name [attachment]. *)
Record FileResponse : Type := mkFileResponse {
  path : string;
  media_type : string;
  attachment : string
}.

(** [create_course(name, description, level, file)]. *)
Definition create_course (name description level : string) (file : UploadFile)
  : exec Course :=
  if negb (endswith (filename file) ".pdf") then
    raise (HTTPException 400 "Le fichier doit être un PDF")
  else
    let pdf_path := os_path_join UPLOAD_DIR (filename file) in
    write_bytes pdf_path (content file);;
    created ← datetime_now;
    updated ← datetime_now;
    let course :=
      mkCourse name description pdf_path (Moment created) (Moment updated) level in
    courses ← read_courses;
    courses ← lift (append courses (Obj course));
    write_courses courses;;
    mret course.

(** [get_courses()]. *)
Definition get_courses : exec json := read_courses.

(** The loop of [get_course] over the elements still to visit. *)
Fixpoint get_course_for (course_name : string) (rest : list json) : result json :=
  match rest with
  | [] => Raise (HTTPException 404 "Course not found")
  | course :: rest' =>
      match getitem course "name" with
      | Raise e => Raise e
      | Ok n =>
          if eq_str n course_name then Ok course
          else get_course_for course_name rest'
      end
  end.

(** [get_course(course_name)]. *)
Definition get_course (course_name : string) : exec json :=
  courses ← read_courses;
  elements ← lift (iterate courses);
  lift (get_course_for course_name elements).

(** The object that [update_course] puts in the place of the record it
    found: the request body with its two timestamps assigned. *)
Definition replacement (body : Course) (created : json) (now : datetime) : Course :=
  mkCourse (name body) (description body) (pdf_path body)
           (Plain created) (Moment now) (level body).

(** The loop of [update_course]: [courses] is the whole list, [rest] its
    elements from position [index] on. *)
Fixpoint update_course_for (course_name : string) (updated_course : Course)
    (courses : list json) (index : nat) (rest : list json) : exec Course :=
  match rest with
  | [] => raise (HTTPException 404 "Course not found")
  | course :: rest' =>
      n ← lift (getitem course "name");
      if eq_str n course_name then
        created ← lift (getitem course "created_at");
        now ← datetime_now;
        let updated_course := replacement updated_course created now in
        let courses := <[index := Obj updated_course]> (List.map Raw courses) in
        write_courses courses;;
        mret updated_course
      else update_course_for course_name updated_course courses (S index) rest'
  end.

(** [update_course(course_name, updated_course)].  The assignment
    [courses[index] = updated_course] is reached only when [courses] is a
    list: the elements of a dictionary or of a string are strings, and
    [course["name"]] raises on the first of them. *)
Definition update_course (course_name : string) (updated_course : Course)
  : exec Course :=
  courses ← read_courses;
  elements ← lift (iterate courses);
  update_course_for course_name updated_course elements 0 elements.

(** The loop of [delete_course]. *)
Fixpoint delete_course_for (course_name : string)
    (courses : list json) (index : nat) (rest : list json) : exec json :=
  match rest with
  | [] => raise (HTTPException 404 "Course not found")
  | course :: rest' =>
      n ← lift (getitem course "name");
      if eq_str n course_name then
        popped ← lift (pop courses index);
        let '(deleted_course, courses) := popped in
        write_courses (List.map Raw courses);;
        mret deleted_course
      else delete_course_for course_name courses (S index) rest'
  end.

(** [delete_course(course_name)].  As in [update_course], [courses.pop] is
    reached only when [courses] is a list. *)
Definition delete_course (course_name : string) : exec json :=
  courses ← read_courses;
  elements ← lift (iterate courses);
  delete_course_for course_name elements 0 elements.

(** The loop of [download_course_file].  A [pdf_path] that is not a string
    is not a path of the modelled file system.  On null, a list or an
    object [os.path.exists] raises [TypeError]; a number or a boolean it
    takes for a file descriptor, and the answer then depends on the
    descriptors the process has open, which the model does not have: the
    model stops with [TypeError] there too.  No property below is about a
    record whose [pdf_path] is not a string, except that the call leaves
    the world as it is. *)
Fixpoint download_course_file_for (course_name : string) (rest : list json)
  : exec FileResponse :=
  match rest with
  | [] => raise (HTTPException 404 "Cours non trouvé")
  | course :: rest' =>
      n ← lift (getitem course "name");
      if eq_str n course_name then
        file_path ← lift (getitem course "pdf_path");
        match file_path with
        | JStr file_path =>
            present ← os_path_exists file_path;
            if (present : bool) then
              mret (mkFileResponse file_path "application/pdf" (Path_name file_path))
            else raise (HTTPException 404 "Fichier PDF non trouvé")
        | _ => raise TypeError
        end
      else download_course_file_for course_name rest'
  end.

(** [download_course_file(course_name)]. *)
Definition download_course_file (course_name : string) : exec FileResponse :=
  courses ← read_courses;
  elements ← lift (iterate courses);
  download_course_file_for course_name elements.

(** What a response sends: the bytes, or the text of the document, of the
    file at its path. *)
Definition body (w : world) (r : FileResponse) : option file :=
  files w !! path r.

(** ** The vocabulary of the specification *)

(** The table of a world is the list that [read_courses] returns in it. *)
Definition table (w : world) (courses : list json) : Prop :=
  read_courses w = (Ok (JList courses), w).

(** A record whose name is [course_name]. *)
Definition named (course_name : string) (course : json) : Prop :=
  getitem course "name" = Ok (JStr course_name).

(** A record that has a name, and another one than [course_name]. *)
Definition other_name (course_name : string) (course : json) : Prop :=
  ∃ n, getitem course "name" = Ok n ∧ n ≠ JStr course_name.

(** The form in which [write_courses] stores a [Course] object. *)
Definition stored (c : Course) : json := json_encode (DDict (Course_dict c)).

(** The numbers that fit on [k] digits are those below [bound k]. *)
Fixpoint bound (k : nat) : N :=
  match k with
  | 0 => 1
  | S k' => 10 * bound k'
  end.

(** A name without a separator: a file name, not a path. *)
Fixpoint plain_name (s : string) : bool :=
  match s with
  | EmptyString => true
  | String c s' => negb (Ascii.eqb c "/"%char) && plain_name s'
  end.

(** A [datetime] whose fields fit the widths that [str] prints them on. *)
Definition printable (t : datetime) : Prop :=
  (year t < 10000 ∧ month t < 100 ∧ day t < 100 ∧ hour t < 100 ∧
   minute t < 100 ∧ second t < 100 ∧ microsecond t < 1000000)%N.

(** A path in its normal spelling: relative, with no empty, ["."] or [".."]
    component. *)
Definition normal_path (p : string) : bool :=
  forallb (λ c, negb (String.eqb c "" || String.eqb c "." || String.eqb c ".."))
          (split_sep p).

(** A path that is spelled inside the upload directory. *)
Definition in_upload_dir (p : string) : bool := startswith p (UPLOAD_DIR ++ "/").

(** The worlds and requests of the examples. *)
Definition midnight (n : nat) : datetime := Datetime 2024 9 1 0 0 0 (N.of_nat n).

(** A fresh installation: no table file and no upload yet; the upload
    directory is there, as the program makes it when it starts. *)
Definition empty_world : world := World {[UPLOAD_DIR := Directory]} midnight 0.

Definition algebra_pdf : UploadFile := mkUploadFile "algebra.pdf" [x25; x50; x44; x46]%byte.

Definition algebra_record : json :=
  JDict [ ("name", JStr "Algebra"); ("description", JStr "Groups and rings");
          ("pdf_path", JStr "pdf_files/algebra.pdf");
          ("created_at", JStr "2024-09-01 00:00:00");
          ("updated_at", JStr "2024-09-01 00:00:00.000001");
          ("level", JStr "Bac") ].

Definition analysis_record : json :=
  JDict [ ("name", JStr "Analysis"); ("description", JStr "Limits");
          ("pdf_path", JStr "pdf_files/analysis.pdf");
          ("created_at", JStr "2024-08-30 10:00:00");
          ("updated_at", JStr "2024-08-30 10:00:00");
          ("level", JStr "Bac") ].

(** A second record named Algebra, to see which of two the handlers take. *)
Definition algebra_again : json :=
  JDict [ ("name", JStr "Algebra"); ("description", JStr "Linear algebra");
          ("pdf_path", JStr "pdf_files/linear.pdf");
          ("created_at", JStr "2024-08-31 09:00:00");
          ("updated_at", JStr "2024-08-31 09:00:00");
          ("level", JStr "6ème") ].

Definition catalogue : world :=
  World (<[COURSES_FILE := Document (JList [analysis_record; algebra_record; algebra_again])]>
         (<["pdf_files/algebra.pdf" := Content [x25; x50; x44; x46]%byte]>
          {[UPLOAD_DIR := Directory]}))
        midnight 0.

Definition geometry_body : Course :=
  mkCourse "Geometry" "Circles" "pdf_files/geometry.pdf"
           (Moment (Datetime 2000 1 1 0 0 0 0)) (Moment (Datetime 2000 1 1 0 0 0 0)) "5ème".


(** A record without a name and without timestamps, as another program
    could have left it in the table. *)
Definition nameless_record : json :=
  JDict [ ("title", JStr "Topology"); ("pdf_path", JStr "pdf_files/topology.pdf") ].

Definition damaged_catalogue : world :=
  World (<[COURSES_FILE := Document (JList [analysis_record; nameless_record; algebra_record])]>
         {[UPLOAD_DIR := Directory]})
        midnight 0.

(** A record with a name only. *)
Definition bare_record : json := JDict [ ("name", JStr "Topology") ].

Definition bare_catalogue : world :=
  World (<[COURSES_FILE := Document (JList [analysis_record; bare_record])]>
         {[UPLOAD_DIR := Directory]})
        midnight 0.

(** A table file that holds a JSON object where the list should be. *)
Definition object_world : world :=
  World (<[COURSES_FILE := Document (JDict [("courses", JList [algebra_record])])]>
         {[UPLOAD_DIR := Directory]})
        midnight 0.

(** A table file saved by an editor in UTF-16: a byte order mark, then the
    text of an empty list. *)
Definition utf16_world : world :=
  World (<[COURSES_FILE := Content [xff; xfe; x5b; x00; x5d; x00]%byte]>
         {[UPLOAD_DIR := Directory]})
        midnight 0.



(** A request body that points a record to the table file. *)
Definition table_body : Course :=
  mkCourse "Algebra" "Groups and rings" COURSES_FILE
           (Moment (Datetime 2000 1 1 0 0 0 0)) (Moment (Datetime 2000 1 1 0 0 0 0)) "Bac".
(** * Properties *)

(** ** The operations on examples *)

Example datetime_str_ex1 :
  datetime_str (Datetime 2024 1 2 3 4 5 0) = "2024-01-02 03:04:05".
Proof. reflexivity. Qed.

Example datetime_str_ex2 :
  datetime_str (Datetime 2024 11 12 13 14 15 1230) = "2024-11-12 13:14:15.001230".
Proof. reflexivity. Qed.

Example join_ex1 : os_path_join "pdf_files" "a.pdf" = "pdf_files/a.pdf".
Proof. reflexivity. Qed.

Example join_ex2 : os_path_join "pdf_files" "/tmp/a.pdf" = "/tmp/a.pdf".
Proof. reflexivity. Qed.

Example Path_name_ex1 : Path_name "pdf_files/a.pdf" = "a.pdf".
Proof. reflexivity. Qed.

Example Path_name_ex2 : Path_name "pdf_files//b/./" = "b".
Proof. reflexivity. Qed.

Example endswith_ex1 : endswith "notes.pdf" ".pdf" = true.
Proof. reflexivity. Qed.

Example endswith_ex2 : endswith "notes.pdf.txt" ".pdf" = false.
Proof. reflexivity. Qed.

Example in_upload_dir_ex1 : in_upload_dir "pdf_files/algebra.pdf" = true.
Proof. reflexivity. Qed.

Example in_upload_dir_ex2 : in_upload_dir "pdf_filesystem.pdf" = false.
Proof. reflexivity. Qed.

(** The scenario of the specification: create, list, update, look up,
    delete, look up again; the uploaded file outlives its record. *)
Example scenario :
  ∃ c w1 u w2 d w3,
    create_course "Algebra" "Groups and rings" "6ème" algebra_pdf empty_world = (Ok c, w1) ∧
    get_courses w1 = (Ok (JList [stored c]), w1) ∧
    update_course "Algebra"
      (mkCourse "Algebra" "Groups and rings" "pdf_files/algebra.pdf"
                (Moment (midnight 7)) (Moment (midnight 7)) "Bac") w1 = (Ok u, w2) ∧
    get_course "Algebra" w2 = (Ok (stored u), w2) ∧
    getitem (stored u) "level" = Ok (JStr "Bac") ∧
    getitem (stored u) "created_at" = getitem (stored c) "created_at" ∧
    delete_course "Algebra" w2 = (Ok d, w3) ∧
    get_course "Algebra" w3 = (Raise (HTTPException 404 "Course not found"), w3) ∧
    files w3 !! "pdf_files/algebra.pdf" = Some (Content (content algebra_pdf)).
Proof.
  do 6 eexists.
  split; [vm_compute; reflexivity|]. split; [vm_compute; reflexivity|].
  split; [vm_compute; reflexivity|]. split; [vm_compute; reflexivity|].
  split; [reflexivity|]. split; [reflexivity|].
  split; [vm_compute; reflexivity|]. split; [vm_compute; reflexivity|].
  reflexivity.
Qed.

(** ** The store *)

Ltac run_read :=
  unfold read_courses, mbind, exec_bind, os_path_exists,
    try_except_JSONDecodeError, json_load, mret, exec_ret.

Lemma read_courses_document (w : world) (doc : json) :
  files w !! COURSES_FILE = Some (Document doc) → read_courses w = (Ok doc, w).
Proof. intros E. run_read. rewrite E. simpl. by rewrite E. Qed.

Lemma read_courses_absent (w : world) :
  files w !! COURSES_FILE = None → read_courses w = (Ok (JList []), w).
Proof. intros E. run_read. by rewrite E. Qed.

Lemma read_courses_undecodable (w : world) (bytes : list byte) :
  files w !! COURSES_FILE = Some (Content bytes) → utf8_valid bytes = false →
  read_courses w = (Raise UnicodeDecodeError, w).
Proof. intros E H. run_read. rewrite E. simpl. by rewrite E, H. Qed.

(** What [read_courses] answers depends on the table file only, and it
    leaves the world as it is. *)
Lemma read_courses_answer (w : world) :
  read_courses w =
  (match files w !! COURSES_FILE with
   | None => Ok (JList [])
   | Some (Document doc) => Ok doc
   | Some (Content bytes) =>
       if utf8_valid bytes then Ok (JList []) else Raise UnicodeDecodeError
   | Some Directory => Raise IsADirectoryError
   end, w).
Proof.
  run_read. destruct (files w !! COURSES_FILE) as [[doc|bytes|]|] eqn:E; simpl;
    rewrite ?E; try done.
  by destruct (utf8_valid bytes).
Qed.

Lemma read_courses_world (w : world) : ∃ r, read_courses w = (r, w).
Proof. rewrite read_courses_answer. eauto. Qed.

Lemma write_courses_run (courses : list item) (w : world) :
  write_courses courses w =
  (Ok tt, World (<[COURSES_FILE := Document (written courses)]> (files w)) (clock w) (ticks w)).
Proof.
  unfold write_courses, mbind, exec_bind, os_path_exists, json_dump, mret, exec_ret, written.
  case_bool_decide; simpl; [done|].
  by rewrite insert_insert_eq.
Qed.

Lemma written_raw (courses : list json) : written (List.map Raw courses) = JList courses.
Proof.
  unfold written. f_equal. rewrite !List.map_map. simpl. apply List.map_id.
Qed.

Lemma read_after_write (doc : json) (fs : gmap string file) (c : nat → datetime) (t : nat) :
  read_courses (World (<[COURSES_FILE := Document doc]> fs) c t) =
  (Ok doc, World (<[COURSES_FILE := Document doc]> fs) c t).
Proof. apply read_courses_document. simpl. apply lookup_insert_eq. Qed.

(** ** Scanning the table *)

Lemma eq_str_true (n : json) (s : string) : eq_str n s = true ↔ n = JStr s.
Proof.
  destruct n; simpl; try (split; [discriminate|intros [=]]).
  rewrite String.eqb_eq. split; [by intros ->|by intros [= ->]].
Qed.

Lemma eq_str_false (n : json) (s : string) : eq_str n s = false ↔ n ≠ JStr s.
Proof.
  rewrite <- eq_str_true. destruct (eq_str n s); split; try done.
Qed.

Lemma insert_middle {A : Type} (l1 l2 : list A) (x y : A) :
  <[length l1 := y]> (l1 ++ x :: l2)%list = (l1 ++ y :: l2)%list.
Proof. induction l1 as [|a l1 IH]; simpl; [done|]. by rewrite IH. Qed.

Lemma written_middle (before after : list json) (c : Course) :
  written (List.map Raw before ++ Obj c :: List.map Raw after)%list =
  JList (before ++ stored c :: after)%list.
Proof.
  unfold written. f_equal. rewrite !List.map_app. simpl.
  rewrite !List.map_map. simpl. by rewrite !List.map_id.
Qed.

Section scan.
Variable course_name : string.

Lemma get_course_for_miss (rest : list json) :
  Forall (other_name course_name) rest →
  get_course_for course_name rest = Raise (HTTPException 404 "Course not found").
Proof.
  induction 1 as [|course rest (n & Hn & Hne) _ IH]; [done|].
  simpl. rewrite Hn. apply eq_str_false in Hne. by rewrite Hne.
Qed.

Lemma get_course_for_hit (before after : list json) (course : json) :
  Forall (other_name course_name) before → named course_name course →
  get_course_for course_name (before ++ course :: after)%list = Ok course.
Proof.
  intros Hb Hc. induction Hb as [|c before (n & Hn & Hne) _ IH]; simpl.
  - rewrite Hc. simpl. by rewrite String.eqb_refl.
  - rewrite Hn. apply eq_str_false in Hne. by rewrite Hne.
Qed.

Lemma update_course_for_miss (body : Course) (courses rest : list json)
    (index : nat) (w : world) :
  Forall (other_name course_name) rest →
  update_course_for course_name body courses index rest w =
  (Raise (HTTPException 404 "Course not found"), w).
Proof.
  intros H. revert index.
  induction H as [|course rest (n & Hn & Hne) _ IH]; intros index; [done|].
  simpl. unfold mbind, exec_bind, lift. rewrite Hn.
  apply eq_str_false in Hne. rewrite Hne. apply IH.
Qed.

Lemma delete_course_for_miss (courses rest : list json) (index : nat) (w : world) :
  Forall (other_name course_name) rest →
  delete_course_for course_name courses index rest w =
  (Raise (HTTPException 404 "Course not found"), w).
Proof.
  intros H. revert index.
  induction H as [|course rest (n & Hn & Hne) _ IH]; intros index; [done|].
  simpl. unfold mbind, exec_bind, lift. rewrite Hn.
  apply eq_str_false in Hne. rewrite Hne. apply IH.
Qed.

Lemma download_course_file_for_miss (rest : list json) (w : world) :
  Forall (other_name course_name) rest →
  download_course_file_for course_name rest w =
  (Raise (HTTPException 404 "Cours non trouvé"), w).
Proof.
  induction 1 as [|course rest (n & Hn & Hne) _ IH]; [done|].
  simpl. unfold mbind, exec_bind, lift. rewrite Hn.
  apply eq_str_false in Hne. rewrite Hne. apply IH.
Qed.

Lemma update_course_for_hit (body : Course) (seen before after : list json)
    (course created : json) (w : world) :
  Forall (other_name course_name) before → named course_name course →
  getitem course "created_at" = Ok created →
  update_course_for course_name body (seen ++ before ++ course :: after)%list
    (length seen) (before ++ course :: after)%list w =
  (Ok (replacement body created (clock w (ticks w))),
   World (<[COURSES_FILE :=
             Document (JList (seen ++ before ++
                              stored (replacement body created (clock w (ticks w))) :: after)%list)]>
          (files w))
         (clock w) (S (ticks w))).
Proof.
  intros Hb Hc Hcreated. revert seen.
  induction Hb as [|c before (n & Hn & Hne) _ IH]; intros seen; simpl.
  - unfold mbind, exec_bind, lift. rewrite Hc. simpl. rewrite String.eqb_refl.
    rewrite Hcreated. unfold datetime_now. rewrite write_courses_run. simpl.
    unfold mret, exec_ret. do 3 f_equal.
    rewrite List.map_app. simpl.
    rewrite <- (List.length_map Raw seen), insert_middle.
    f_equal. apply written_middle.
  - unfold mbind, exec_bind, lift. rewrite Hn.
    apply eq_str_false in Hne. rewrite Hne.
    specialize (IH (seen ++ [c])%list).
    rewrite length_app, Nat.add_1_r, <- !app_assoc in IH. apply IH.
Qed.

Lemma delete_course_for_hit (seen before after : list json) (course : json) (w : world) :
  Forall (other_name course_name) before → named course_name course →
  delete_course_for course_name (seen ++ before ++ course :: after)%list
    (length seen) (before ++ course :: after)%list w =
  (Ok course,
   World (<[COURSES_FILE := Document (JList (seen ++ before ++ after)%list)]> (files w))
         (clock w) (ticks w)).
Proof.
  intros Hb Hc. revert seen.
  induction Hb as [|c before (n & Hn & Hne) _ IH]; intros seen; simpl.
  - unfold mbind, exec_bind, lift. rewrite Hc. simpl. rewrite String.eqb_refl.
    unfold pop. rewrite list_lookup_middle by done.
    rewrite write_courses_run. unfold mret, exec_ret.
    by rewrite delete_middle, written_raw.
  - unfold mbind, exec_bind, lift. rewrite Hn.
    apply eq_str_false in Hne. rewrite Hne.
    specialize (IH (seen ++ [c])%list).
    rewrite length_app, Nat.add_1_r, <- !app_assoc in IH. apply IH.
Qed.

Lemma download_course_file_for_hit (before after : list json) (course : json)
    (p : string) (w : world) :
  Forall (other_name course_name) before → named course_name course →
  getitem course "pdf_path" = Ok (JStr p) →
  download_course_file_for course_name (before ++ course :: after)%list w =
  match files w !! p with
  | Some _ => (Ok (mkFileResponse p "application/pdf" (Path_name p)), w)
  | None => (Raise (HTTPException 404 "Fichier PDF non trouvé"), w)
  end.
Proof.
  intros Hb Hc Hp.
  induction Hb as [|c before (n & Hn & Hne) _ IH]; simpl.
  - unfold mbind, exec_bind, lift. rewrite Hc. simpl. rewrite String.eqb_refl.
    rewrite Hp. unfold os_path_exists.
    by destruct (files w !! p) as [f|].
  - unfold mbind, exec_bind, lift. rewrite Hn.
    apply eq_str_false in Hne. by rewrite Hne.
Qed.
End scan.

(** ** The handlers on a table *)

Lemma on_table {A : Type} (k : list json → exec A) (w : world) (courses : list json) :
  table w courses →
  (courses ← read_courses; elements ← lift (iterate courses); k elements) w = k courses w.
Proof. intros H. unfold mbind, exec_bind. by rewrite H. Qed.

Lemma get_course_on_table (course_name : string) (w : world) (courses : list json) :
  table w courses → get_course course_name w = (get_course_for course_name courses, w).
Proof. intros H. unfold get_course. by rewrite (on_table _ w courses H). Qed.

Lemma NotFound_404 (detail : string) : NotFound (HTTPException 404 detail).
Proof. exact I. Qed.

(** C2. A create call whose filename does not end with ".pdf" fails with
    InvalidInput and has no effect: the world it ends in is the world it
    started in, so the table file is unchanged and no file was written,
    in the upload directory or elsewhere. *)
Theorem create_course_rejects_other_suffix
    (name description level : string) (file : UploadFile) (w : world) :
  endswith (filename file) ".pdf" = false →
  ∃ e, create_course name description level file w = (Raise e, w) ∧ InvalidInput e.
Proof.
  intros H. unfold create_course. rewrite H. simpl.
  exists (HTTPException 400 "Le fichier doit être un PDF"). by split.
Qed.

Lemma create_course_rejects_other_suffix_witness :
  endswith (filename (mkUploadFile "notes.txt" [x68; x69]%byte)) ".pdf" = false ∧
  ∃ e, create_course "Algebra" "Groups" "Bac" (mkUploadFile "notes.txt" [x68; x69]%byte)
         catalogue = (Raise e, catalogue) ∧ InvalidInput e.
Proof.
  split; [reflexivity|].
  apply (create_course_rejects_other_suffix "Algebra" "Groups" "Bac"
           (mkUploadFile "notes.txt" [x68; x69]%byte) catalogue).
  reflexivity.
Defined.

(** C3, on the code.  A table file that is not UTF-8 text, here one saved
    in UTF-16, is a table in a bad state on which [read_courses] raises:
    the error of the decoding is a [UnicodeDecodeError], which the handler
    for [json.JSONDecodeError] does not catch.  [get_courses] raises with
    it. *)
Theorem read_courses_raises_on_undecodable :
  files utf16_world !! COURSES_FILE = Some (Content [xff; xfe; x5b; x00; x5d; x00]%byte) ∧
  read_courses utf16_world = (Raise UnicodeDecodeError, utf16_world) ∧
  get_courses utf16_world = (Raise UnicodeDecodeError, utf16_world).
Proof.
  split; [reflexivity|]. unfold get_courses.
  split; by apply read_courses_undecodable with [xff; xfe; x5b; x00; x5d; x00]%byte.
Qed.

(** C8. On a table in which no record has the requested name, each of
    [get_course], [update_course], [delete_course] and
    [download_course_file] fails with NotFound, and leaves the world as it
    is. *)
Theorem lookup_miss_NotFound (w : world) (courses : list json) (course_name : string) :
  table w courses → Forall (other_name course_name) courses →
  (∃ e, get_course course_name w = (Raise e, w) ∧ NotFound e) ∧
  (∀ body, ∃ e, update_course course_name body w = (Raise e, w) ∧ NotFound e) ∧
  (∃ e, delete_course course_name w = (Raise e, w) ∧ NotFound e) ∧
  (∃ e, download_course_file course_name w = (Raise e, w) ∧ NotFound e).
Proof.
  intros Ht Hmiss. repeat split; [|intros body| |].
  - exists (HTTPException 404 "Course not found"). split; [|done].
    by rewrite (get_course_on_table _ _ _ Ht), get_course_for_miss.
  - exists (HTTPException 404 "Course not found"). split; [|done].
    unfold update_course. rewrite (on_table _ w courses Ht).
    by apply update_course_for_miss.
  - exists (HTTPException 404 "Course not found"). split; [|done].
    unfold delete_course. rewrite (on_table _ w courses Ht).
    by apply delete_course_for_miss.
  - exists (HTTPException 404 "Cours non trouvé"). split; [|done].
    unfold download_course_file. rewrite (on_table _ w courses Ht).
    by apply download_course_file_for_miss.
Qed.

Ltac other_names :=
  repeat constructor; eexists; (split; [reflexivity|discriminate]).

Lemma lookup_miss_NotFound_witness :
  (∃ e, get_course "Topology" catalogue = (Raise e, catalogue) ∧ NotFound e) ∧
  (∀ body, ∃ e, update_course "Topology" body catalogue = (Raise e, catalogue) ∧ NotFound e) ∧
  (∃ e, delete_course "Topology" catalogue = (Raise e, catalogue) ∧ NotFound e) ∧
  (∃ e, download_course_file "Topology" catalogue = (Raise e, catalogue) ∧ NotFound e).
Proof.
  apply (lookup_miss_NotFound catalogue [analysis_record; algebra_record; algebra_again]
           "Topology").
  - reflexivity.
  - other_names.
Defined.

(** C4. When the table has a record with the requested name, [delete_course]
    removes the first such record, returns it, and leaves all the others in
    the table in their order; no other file changes.  When the table has no
    such record, it fails with NotFound and the world, the table with it,
    is as before. *)
Theorem delete_course_first_match (w : world) (courses : list json) (course_name : string) :
  table w courses →
  (∀ before course after,
     courses = (before ++ course :: after)%list →
     Forall (other_name course_name) before → named course_name course →
     ∃ w', delete_course course_name w = (Ok course, w') ∧
           table w' (before ++ after)%list ∧
           ∀ p, p ≠ COURSES_FILE → files w' !! p = files w !! p) ∧
  (Forall (other_name course_name) courses →
     ∃ e, delete_course course_name w = (Raise e, w) ∧ NotFound e).
Proof.
  intros Ht. split.
  - intros before course after -> Hb Hc. eexists. split; [|split].
    + unfold delete_course. rewrite (on_table _ w _ Ht).
      apply (delete_course_for_hit course_name [] before after course w Hb Hc).
    + apply read_after_write.
    + intros p Hp. simpl. by rewrite lookup_insert_ne.
  - intros Hmiss. exists (HTTPException 404 "Course not found"). split; [|done].
    unfold delete_course. rewrite (on_table _ w courses Ht).
    by apply delete_course_for_miss.
Qed.

Lemma delete_course_first_match_witness :
  (∃ w', delete_course "Algebra" catalogue = (Ok algebra_record, w') ∧
         table w' [analysis_record; algebra_again] ∧
         ∀ p, p ≠ COURSES_FILE → files w' !! p = files catalogue !! p) ∧
  (∃ e, delete_course "Topology" catalogue = (Raise e, catalogue) ∧ NotFound e).
Proof.
  split.
  - destruct (delete_course_first_match catalogue
                [analysis_record; algebra_record; algebra_again] "Algebra")
      as [Hhit _]; [reflexivity|].
    apply (Hhit [analysis_record] algebra_record [algebra_again]).
    + reflexivity.
    + other_names.
    + reflexivity.
  - destruct (delete_course_first_match catalogue
                [analysis_record; algebra_record; algebra_again] "Topology")
      as [_ Hmiss]; [reflexivity|].
    apply Hmiss. other_names.
Defined.

(** ** Update *)

(** What [update_course] does when it finds a record: it returns the
    request body with the stored [created_at] and the time of the call, and
    writes the table with that object in the place of the record. *)
Lemma update_course_run (w : world) (before after : list json) (course created : json)
    (course_name : string) (body : Course) :
  table w (before ++ course :: after)%list →
  Forall (other_name course_name) before → named course_name course →
  getitem course "created_at" = Ok created →
  update_course course_name body w =
  (Ok (replacement body created (clock w (ticks w))),
   World (<[COURSES_FILE :=
             Document (JList (before ++
                              stored (replacement body created (clock w (ticks w))) :: after)%list)]>
          (files w))
         (clock w) (S (ticks w))).
Proof.
  intros Ht Hb Hc Hcreated. unfold update_course. rewrite (on_table _ w _ Ht).
  apply (update_course_for_hit course_name body [] before after course created w Hb Hc Hcreated).
Qed.

(** C5. When the table has a record with the requested name,
    [update_course] keeps the [created_at] of the first such record, in the
    record it returns and in the table; it sets [updated_at] to the time of
    the call, which the table holds in the text form that [str] gives it;
    it writes the whole table back, the other records as they were; and it
    returns the updated record. *)
Theorem update_course_timestamps (w : world) (before after : list json)
    (course created : json) (course_name : string) (body : Course) :
  table w (before ++ course :: after)%list →
  Forall (other_name course_name) before → named course_name course →
  getitem course "created_at" = Ok created →
  ∃ updated w',
    update_course course_name body w = (Ok updated, w') ∧
    created_at updated = Plain created ∧
    updated_at updated = Moment (clock w (ticks w)) ∧
    table w' (before ++ stored updated :: after)%list ∧
    getitem (stored updated) "created_at" = Ok created ∧
    getitem (stored updated) "updated_at" = Ok (JStr (datetime_str (clock w (ticks w)))).
Proof.
  intros Ht Hb Hc Hcreated. do 2 eexists.
  split; [by apply update_course_run with course|].
  repeat split. apply read_after_write.
Qed.

Lemma update_course_timestamps_witness :
  ∃ updated w',
    update_course "Algebra" geometry_body catalogue = (Ok updated, w') ∧
    created_at updated = Plain (JStr "2024-09-01 00:00:00") ∧
    updated_at updated = Moment (clock catalogue (ticks catalogue)) ∧
    table w' ([analysis_record] ++ stored updated :: [algebra_again])%list ∧
    getitem (stored updated) "created_at" = Ok (JStr "2024-09-01 00:00:00") ∧
    getitem (stored updated) "updated_at" =
      Ok (JStr (datetime_str (clock catalogue (ticks catalogue)))).
Proof.
  apply (update_course_timestamps catalogue [analysis_record] [algebra_again]
           algebra_record (JStr "2024-09-01 00:00:00") "Algebra" geometry_body).
  - reflexivity.
  - other_names.
  - reflexivity.
  - reflexivity.
Defined.

(** C1, as the code has it.  [update_course] puts the request body in the
    place of the first record with the requested name: the stored name,
    description, pdf_path and level are those of the body, the stored
    [created_at] is the one the record had and the stored [updated_at] is
    the time of the call, so the stored name is the name it was only when
    the body carries that name; every other record of the table is left as
    it was. *)
Theorem update_course_replaces_record (w : world) (before after : list json)
    (course created : json) (course_name : string) (body : Course) :
  table w (before ++ course :: after)%list →
  Forall (other_name course_name) before → named course_name course →
  getitem course "created_at" = Ok created →
  ∃ updated w',
    update_course course_name body w = (Ok updated, w') ∧
    table w' (before ++ stored updated :: after)%list ∧
    getitem (stored updated) "name" = Ok (JStr (name body)) ∧
    getitem (stored updated) "description" = Ok (JStr (description body)) ∧
    getitem (stored updated) "pdf_path" = Ok (JStr (pdf_path body)) ∧
    getitem (stored updated) "level" = Ok (JStr (level body)) ∧
    getitem (stored updated) "created_at" = Ok created ∧
    getitem (stored updated) "updated_at" = Ok (JStr (datetime_str (clock w (ticks w)))) ∧
    (named course_name (stored updated) ↔ name body = course_name).
Proof.
  intros Ht Hb Hc Hcreated. do 2 eexists.
  split; [by apply update_course_run with course|].
  split; [apply read_after_write|]. repeat split.
  - by intros [=].
  - intros <-. reflexivity.
Qed.

Lemma update_course_replaces_record_witness :
  ∃ updated w',
    update_course "Algebra" geometry_body catalogue = (Ok updated, w') ∧
    table w' ([analysis_record] ++ stored updated :: [algebra_again])%list ∧
    getitem (stored updated) "name" = Ok (JStr (name geometry_body)) ∧
    getitem (stored updated) "description" = Ok (JStr (description geometry_body)) ∧
    getitem (stored updated) "pdf_path" = Ok (JStr (pdf_path geometry_body)) ∧
    getitem (stored updated) "level" = Ok (JStr (level geometry_body)) ∧
    getitem (stored updated) "created_at" = Ok (JStr "2024-09-01 00:00:00") ∧
    getitem (stored updated) "updated_at" =
      Ok (JStr (datetime_str (clock catalogue (ticks catalogue)))) ∧
    (named "Algebra" (stored updated) ↔ name geometry_body = "Algebra").
Proof.
  apply (update_course_replaces_record catalogue [analysis_record] [algebra_again]
           algebra_record (JStr "2024-09-01 00:00:00") "Algebra" geometry_body).
  - reflexivity.
  - other_names.
  - reflexivity.
  - reflexivity.
Defined.

(** C1, as it is stated, fails: updating the record named Algebra with a
    body named Geometry leaves, in the place of that record, a record whose
    stored name is Geometry. *)
Lemma update_course_renames :
  ∃ updated w' course',
    update_course "Algebra" geometry_body catalogue = (Ok updated, w') ∧
    table w' [analysis_record; course'; algebra_again] ∧
    getitem algebra_record "name" = Ok (JStr "Algebra") ∧
    getitem course' "name" = Ok (JStr "Geometry") ∧
    ¬ named "Algebra" course'.
Proof.
  do 3 eexists. split; [vm_compute; reflexivity|]. split; [reflexivity|].
  split; [reflexivity|]. split; [reflexivity|]. intros [=].
Qed.

(** ** Suffixes and paths *)

Lemma endswith_spec (s suffix : string) :
  endswith s suffix = true ↔ ∃ q, s = q ++ suffix.
Proof.
  induction s as [|c s IH]; cbn [endswith].
  - rewrite orb_false_r, String.eqb_eq. split.
    + intros <-. by exists "".
    + intros [q Hq]. destruct q; [done|discriminate].
  - rewrite orb_true_iff, String.eqb_eq, IH. split.
    + intros [<-|[q ->]]; [by exists ""|by exists (String c q)].
    + intros [[|c' q] Hq]; [by left|].
      change (String c' q ++ suffix) with (String c' (q ++ suffix)) in Hq.
      injection Hq as -> ->. right. eauto.
Qed.

Lemma string_app_assoc (a b c : string) : (a ++ b) ++ c = a ++ (b ++ c).
Proof.
  induction a as [|x a IH]; [done|].
  change (String x ((a ++ b) ++ c) = String x (a ++ (b ++ c))). by rewrite IH.
Qed.

Lemma endswith_app (q s suffix : string) :
  endswith s suffix = true → endswith (q ++ s) suffix = true.
Proof.
  rewrite !endswith_spec. intros [r ->]. exists (q ++ r). by rewrite string_app_assoc.
Qed.

(** The path that [create_course] writes the upload to ends as the
    filename does. *)
Lemma os_path_join_endswith (a b suffix : string) :
  endswith b suffix = true → endswith (os_path_join a b) suffix = true.
Proof.
  intros H. unfold os_path_join.
  destruct (startswith b "/"); [done|].
  destruct (String.eqb a "" || endswith a "/")%bool.
  - by apply endswith_app.
  - apply endswith_app. by apply (endswith_app "/").
Qed.

(** An upload never lands on the table file. *)
Lemma upload_path_not_table (filename : string) :
  endswith filename ".pdf" = true → os_path_join UPLOAD_DIR filename ≠ COURSES_FILE.
Proof.
  intros H Heq. apply (os_path_join_endswith UPLOAD_DIR) in H.
  rewrite Heq in H. discriminate H.
Qed.

(** ** Create *)

(** [read_courses] looks at the table file only. *)
Lemma table_ext (w1 w2 : world) (courses : list json) :
  files w1 !! COURSES_FILE = files w2 !! COURSES_FILE →
  table w1 courses → table w2 courses.
Proof.
  unfold table. rewrite !read_courses_answer. intros -> H.
  injection H as H. by rewrite H.
Qed.

(** What [create_course] does with a filename that ends with ".pdf", on a
    table: it writes the upload, reads the clock twice, and appends the new
    record to the table. *)
Lemma create_course_run (name description level : string) (file : UploadFile)
    (w : world) (courses : list json) :
  endswith (filename file) ".pdf" = true → table w courses →
  let pdf_path := os_path_join UPLOAD_DIR (filename file) in
  let course := mkCourse name description pdf_path (Moment (clock w (ticks w)))
                         (Moment (clock w (S (ticks w)))) level in
  create_course name description level file w =
  (Ok course,
   World (<[COURSES_FILE := Document (JList (courses ++ [stored course])%list)]>
          (<[pdf_path := Content (content file)]> (files w)))
         (clock w) (S (S (ticks w)))).
Proof.
  intros Hpdf Ht pdf_path course. unfold create_course. rewrite Hpdf. simpl.
  unfold mbind at 1, exec_bind, write_bytes.
  unfold mbind at 1, exec_bind, datetime_now. simpl.
  unfold mbind at 1, exec_bind. simpl.
  set (w1 := World _ _ _).
  assert (table w1 courses) as Ht1.
  { apply (table_ext w). 
    - simpl. symmetry. apply lookup_insert_ne. by apply upload_path_not_table.
    - done. }
  unfold mbind at 1, exec_bind. rewrite Ht1.
  unfold mbind at 1, exec_bind, lift, append.
  unfold mbind, exec_bind. rewrite write_courses_run. unfold mret, exec_ret.
  do 3 f_equal. unfold written. f_equal.
  rewrite !List.map_app, !List.map_map. simpl. by rewrite List.map_id.
Qed.

(** The record that a successful [create_course] returns: its timestamps
    are two successive answers of the clock. *)
Lemma create_course_returns (name description level : string) (file : UploadFile)
    (w w' : world) (c : Course) :
  create_course name description level file w = (Ok c, w') →
  c = mkCourse name description (os_path_join UPLOAD_DIR (filename file))
               (Moment (clock w (ticks w))) (Moment (clock w (S (ticks w)))) level.
Proof.
  unfold create_course. destruct (endswith (filename file) ".pdf"); simpl; [|discriminate].
  unfold mbind at 1, exec_bind, write_bytes.
  unfold mbind at 1, exec_bind, datetime_now. simpl.
  unfold mbind at 1, exec_bind. simpl.
  set (w1 := World _ _ _).
  destruct (read_courses_world w1) as [[doc|e] Hdoc];
    unfold mbind at 1, exec_bind; rewrite Hdoc; [|discriminate].
  unfold mbind at 1, exec_bind, lift, append.
  destruct doc; try discriminate.
  unfold mbind, exec_bind. rewrite write_courses_run. unfold mret, exec_ret.
  by intros [= <- _].
Qed.

(** C6, as the code has it.  [create_course] reads the clock once for
    [created_at] and once more for [updated_at]: the record of a successful
    call carries these two readings, and its two timestamps are equal
    exactly when the clock gave the same answer twice. *)
Theorem create_course_timestamps (name description level : string) (file : UploadFile)
    (w w' : world) (c : Course) :
  create_course name description level file w = (Ok c, w') →
  created_at c = Moment (clock w (ticks w)) ∧
  updated_at c = Moment (clock w (S (ticks w))) ∧
  (created_at c = updated_at c ↔ clock w (ticks w) = clock w (S (ticks w))).
Proof.
  intros H. apply create_course_returns in H as ->. simpl.
  repeat split; [by intros [=]|by intros ->].
Qed.

Lemma create_course_timestamps_witness :
  ∃ c w',
    create_course "Algebra" "Groups and rings" "Bac" algebra_pdf empty_world = (Ok c, w') ∧
    created_at c = Moment (midnight 0) ∧
    updated_at c = Moment (midnight 1) ∧
    (created_at c = updated_at c ↔ midnight 0 = midnight 1).
Proof.
  do 2 eexists. split; [vm_compute; reflexivity|].
  eapply (create_course_timestamps "Algebra" "Groups and rings" "Bac" algebra_pdf empty_world).
  vm_compute. reflexivity.
Defined.

(** C6, as it is stated, fails: on a clock that moves between the two
    readings, the record that [create_course] returns has a [created_at]
    that is not its [updated_at]. *)
Lemma create_course_timestamps_differ :
  ∃ c w',
    create_course "Algebra" "Groups and rings" "Bac" algebra_pdf empty_world = (Ok c, w') ∧
    created_at c = Moment (Datetime 2024 9 1 0 0 0 0) ∧
    updated_at c = Moment (Datetime 2024 9 1 0 0 0 1) ∧
    created_at c ≠ updated_at c.
Proof.
  do 2 eexists. split; [vm_compute; reflexivity|]. simpl.
  split; [reflexivity|]. split; [reflexivity|]. intros [=].
Qed.

(** C10, on the code.  A client that names its upload with an absolute path
    has it written at that path: the file and the [pdf_path] of the record
    are outside the upload directory. *)
Theorem create_course_absolute_filename :
  ∃ c w',
    create_course "Algebra" "Groups and rings" "Bac"
      (mkUploadFile "/srv/www/index.pdf" [x25; x50; x44; x46]%byte) empty_world = (Ok c, w') ∧
    pdf_path c = "/srv/www/index.pdf" ∧
    files w' !! "/srv/www/index.pdf" = Some (Content [x25; x50; x44; x46]%byte) ∧
    in_upload_dir (pdf_path c) = false.
Proof.
  do 2 eexists. split; [vm_compute; reflexivity|]. simpl.
  split; [reflexivity|]. split; [reflexivity|]. reflexivity.
Qed.

(** ** The text of a timestamp *)

Lemma append_cons (c : ascii) (s t : string) : String c s ++ t = String c (s ++ t).
Proof. reflexivity. Qed.

Lemma append_nil_l (s : string) : "" ++ s = s.
Proof. reflexivity. Qed.

Lemma String_inj (c : ascii) (s s' : string) : String c s = String c s' → s = s'.
Proof. by intros [=]. Qed.

Lemma append_nil_r (s : string) : s ++ "" = s.
Proof.
  induction s as [|c s IH]; [done|]. by rewrite append_cons, IH.
Qed.

Lemma digit_inj (a b : N) : digit a = digit b → (a mod 10 = b mod 10)%N.
Proof.
  unfold digit. intros H. apply (f_equal N_of_ascii) in H.
  assert (a mod 10 < 10)%N by (apply N.mod_upper_bound; lia).
  assert (b mod 10 < 10)%N by (apply N.mod_upper_bound; lia).
  rewrite !N_ascii_embedding in H by lia. lia.
Qed.

(** A padded number can be read back from the front of a text. *)
Lemma pad_inj (k : nat) (n m : N) (s s' : string) :
  (n < bound k)%N → (m < bound k)%N →
  pad k n ++ s = pad k m ++ s' → n = m ∧ s = s'.
Proof.
  revert n m s s'. induction k as [|k IH]; intros n m s s' Hn Hm H.
  - simpl in Hn, Hm. split; [lia|done].
  - cbn [pad bound] in *. rewrite !string_app_assoc, !append_cons, !append_nil_l in H.
    apply IH in H as [Hdiv Hrest];
      [|apply N.Div0.div_lt_upper_bound; lia..].
    injection Hrest as Hdigit ->. apply digit_inj in Hdigit.
    split; [|done].
    by rewrite (N.div_mod' n 10), (N.div_mod' m 10), Hdiv, Hdigit.
Qed.

(** [str] loses nothing of a timestamp. *)
Lemma datetime_str_inj (t1 t2 : datetime) :
  printable t1 → printable t2 → datetime_str t1 = datetime_str t2 → t1 = t2.
Proof.
  destruct t1 as [y1 mo1 d1 h1 mi1 s1 us1], t2 as [y2 mo2 d2 h2 mi2 s2 us2].
  unfold printable, datetime_str.
  cbn [year month day hour minute second microsecond].
  intros (Hy1&Hmo1&Hd1&Hh1&Hmi1&Hs1&Hu1) (Hy2&Hmo2&Hd2&Hh2&Hmi2&Hs2&Hu2) H.
  apply pad_inj in H as [-> H1]; [|done..]. rewrite ?append_cons, ?append_nil_l in H1.
  apply String_inj in H1.
  apply pad_inj in H1 as [-> H2]; [|done..]. rewrite ?append_cons, ?append_nil_l in H2.
  apply String_inj in H2.
  apply pad_inj in H2 as [-> H3]; [|done..]. rewrite ?append_cons, ?append_nil_l in H3.
  apply String_inj in H3.
  apply pad_inj in H3 as [-> H4]; [|done..]. rewrite ?append_cons, ?append_nil_l in H4.
  apply String_inj in H4.
  apply pad_inj in H4 as [-> H5]; [|done..]. rewrite ?append_cons, ?append_nil_l in H5.
  apply String_inj in H5.
  apply pad_inj in H5 as [-> H6]; [|done..].
  destruct (N.eqb_spec us1 0) as [->|Hus1], (N.eqb_spec us2 0) as [->|Hus2];
    try done; rewrite ?append_cons, ?append_nil_l in H6; try discriminate H6.
  apply String_inj in H6.
  rewrite <- (append_nil_r (pad 6 us1)), <- (append_nil_r (pad 6 us2)) in H6.
  apply pad_inj in H6 as [-> _]; done.
Qed.

(** ** Writing the table and reading it back *)

(** C7, as the code has it.  [read_courses] after [write_courses] gives, for
    each [Course] object written, a dictionary whose name, description,
    pdf_path and level are those of the object and whose created_at and
    updated_at are what [str] makes of its timestamps: a text for a
    [datetime], from which the [datetime] can be told, and the value itself
    when it already came from the table.  A table of dictionaries as
    [read_courses] returns them is read back as it was written. *)
Theorem write_then_read (w : world) (cs : list Course) (js : list json) :
  (∃ w', write_courses (List.map Obj cs) w = (Ok tt, w') ∧ table w' (List.map stored cs)) ∧
  (∃ w', write_courses (List.map Raw js) w = (Ok tt, w') ∧ table w' js) ∧
  (∀ c, getitem (stored c) "name" = Ok (JStr (name c)) ∧
        getitem (stored c) "description" = Ok (JStr (description c)) ∧
        getitem (stored c) "pdf_path" = Ok (JStr (pdf_path c)) ∧
        getitem (stored c) "level" = Ok (JStr (level c)) ∧
        getitem (stored c) "created_at" = Ok (default_str (created_at c)) ∧
        getitem (stored c) "updated_at" = Ok (default_str (updated_at c))) ∧
  (∀ t, default_str (Moment t) = JStr (datetime_str t)) ∧
  (∀ t1 t2, printable t1 → printable t2 →
            default_str (Moment t1) = default_str (Moment t2) → t1 = t2).
Proof.
  split; [|split; [|split; [|split]]].
  - eexists. split; [apply write_courses_run|].
    replace (written (List.map Obj cs)) with (JList (List.map stored cs)).
    + apply read_after_write.
    + unfold written. rewrite !List.map_map. reflexivity.
  - eexists. split; [apply write_courses_run|].
    rewrite written_raw. apply read_after_write.
  - intros c. by repeat split.
  - done.
  - intros t1 t2 H1 H2 H. apply datetime_str_inj; [done..|].
    unfold default_str in H. congruence.
Qed.

(** C7, as it is stated, fails: a [Course] whose timestamps are [datetime]
    objects is read back with timestamps that are strings, which are not
    the values that were written. *)
Lemma write_then_read_timestamps_differ :
  ∃ w' r,
    write_courses
      [Obj (mkCourse "Algebra" "Groups and rings" "pdf_files/algebra.pdf"
                     (Moment (Datetime 2024 9 1 0 0 0 0))
                     (Moment (Datetime 2024 9 1 0 0 0 1)) "Bac")] empty_world = (Ok tt, w') ∧
    table w' [r] ∧
    getitem r "created_at" = Ok (JStr "2024-09-01 00:00:00") ∧
    getitem r "updated_at" = Ok (JStr "2024-09-01 00:00:00.000001") ∧
    Plain (JStr "2024-09-01 00:00:00") ≠ Moment (Datetime 2024 9 1 0 0 0 0) ∧
    Plain (JStr "2024-09-01 00:00:00.000001") ≠ Moment (Datetime 2024 9 1 0 0 0 1).
Proof.
  do 2 eexists. split; [vm_compute; reflexivity|]. split; [reflexivity|].
  split; [reflexivity|]. split; [reflexivity|]. split; intros [=].
Qed.

(** ** The name of a stored file *)

Lemma split_sep_nonempty (s : string) : split_sep s ≠ [].
Proof.
  induction s as [|c s IH]; simpl; [done|].
  destruct (Ascii.eqb c "/"); [done|]. by destruct (split_sep s).
Qed.

Lemma split_sep_app (a b : string) :
  split_sep (a ++ String "/" b) = (split_sep a ++ split_sep b)%list.
Proof.
  induction a as [|c a IH]; [done|].
  rewrite append_cons. cbn [split_sep]. rewrite IH.
  destruct (Ascii.eqb c "/"); [done|].
  pose proof (split_sep_nonempty a). by destruct (split_sep a).
Qed.

Lemma split_sep_plain (s : string) : plain_name s = true → split_sep s = [s].
Proof.
  induction s as [|c s IH]; [done|]. cbn [plain_name split_sep].
  intros [Hc Hs]%andb_prop. apply negb_true_iff in Hc. rewrite Hc, IH; done.
Qed.

Lemma plain_name_relative (s : string) : plain_name s = true → startswith s "/" = false.
Proof.
  destruct s as [|c s]; [done|]. cbn [plain_name]. intros [Hc _]%andb_prop.
  apply negb_true_iff in Hc. cbn [startswith].
  by rewrite Ascii.eqb_sym, Hc.
Qed.

Lemma pdf_name_kept (s : string) :
  endswith s ".pdf" = true → (String.eqb s "" || String.eqb s ".")%bool = false.
Proof.
  intros [q ->]%endswith_spec. apply orb_false_iff.
  split; apply String.eqb_neq; destruct q as [|c [|c' q]]; done.
Qed.

(** A file uploaded under a plain name is stored in the upload directory
    under that name. *)
Lemma upload_path_plain (filename : string) :
  plain_name filename = true →
  os_path_join UPLOAD_DIR filename = UPLOAD_DIR ++ "/" ++ filename.
Proof.
  intros H. unfold os_path_join. by rewrite (plain_name_relative _ H).
Qed.

Lemma upload_path_name (filename : string) :
  plain_name filename = true → endswith filename ".pdf" = true →
  Path_name (os_path_join UPLOAD_DIR filename) = filename.
Proof.
  intros Hplain Hpdf. rewrite (upload_path_plain _ Hplain).
  unfold Path_name. rewrite append_cons, append_nil_l, split_sep_app.
  rewrite (split_sep_plain _ Hplain). simpl.
  by rewrite (pdf_name_kept _ Hpdf).
Qed.

(** ** Download *)





(** * Further properties of the handlers *)

(** ** What the handlers leave alone *)

Lemma download_course_file_for_world (course_name : string) (rest : list json) (w : world) :
  snd (download_course_file_for course_name rest w) = w.
Proof.
  induction rest as [|course rest IH]; [done|].
  simpl. unfold mbind, exec_bind, lift.
  destruct (getitem course "name") as [n|e]; [|done].
  destruct (eq_str n course_name); [|apply IH].
  destruct (getitem course "pdf_path") as [[| | |p| |]|e]; try done.
  unfold os_path_exists. by case_bool_decide.
Qed.

(** The handlers that only look things up end in the world they started
    in, whatever they answer: they write no file and do not read the
    clock. *)
Theorem lookups_keep_world (course_name : string) (w : world) :
  snd (get_courses w) = w ∧
  snd (get_course course_name w) = w ∧
  snd (download_course_file course_name w) = w.
Proof.
  destruct (read_courses_world w) as [[doc|e] Hdoc]; (split; [|split]).
  - unfold get_courses. by rewrite Hdoc.
  - unfold get_course, mbind, exec_bind. rewrite Hdoc. unfold lift.
    by destruct (iterate doc).
  - unfold download_course_file, mbind, exec_bind. rewrite Hdoc. unfold lift.
    destruct (iterate doc); [|done]. apply download_course_file_for_world.
  - unfold get_courses. by rewrite Hdoc.
  - unfold get_course, mbind, exec_bind. by rewrite Hdoc.
  - unfold download_course_file, mbind, exec_bind. by rewrite Hdoc.
Qed.

Lemma update_course_for_frame (course_name : string) (body : Course)
    (courses rest : list json) (index : nat) (w : world) (p : string) :
  p ≠ COURSES_FILE →
  files (snd (update_course_for course_name body courses index rest w)) !! p = files w !! p ∧
  clock (snd (update_course_for course_name body courses index rest w)) = clock w.
Proof.
  intros Hp. revert index. induction rest as [|course rest IH]; intros index; [done|].
  simpl. unfold mbind, exec_bind, lift.
  destruct (getitem course "name") as [n|e]; [|done].
  destruct (eq_str n course_name); [|apply IH].
  destruct (getitem course "created_at") as [created|e]; [|done].
  unfold datetime_now. rewrite write_courses_run. simpl.
  by rewrite lookup_insert_ne.
Qed.

Lemma delete_course_for_frame (course_name : string)
    (courses rest : list json) (index : nat) (w : world) (p : string) :
  p ≠ COURSES_FILE →
  files (snd (delete_course_for course_name courses index rest w)) !! p = files w !! p ∧
  clock (snd (delete_course_for course_name courses index rest w)) = clock w ∧
  ticks (snd (delete_course_for course_name courses index rest w)) = ticks w.
Proof.
  intros Hp. revert index. induction rest as [|course rest IH]; intros index; [done|].
  simpl. unfold mbind, exec_bind, lift.
  destruct (getitem course "name") as [n|e]; [|done].
  destruct (eq_str n course_name); [|apply IH].
  destruct (pop courses index) as [[deleted remaining]|e]; [|done].
  rewrite write_courses_run. simpl. by rewrite lookup_insert_ne.
Qed.

Lemma create_course_frame (name description level : string) (file : UploadFile)
    (w : world) (p : string) :
  p ≠ COURSES_FILE → p ≠ os_path_join UPLOAD_DIR (filename file) →
  files (snd (create_course name description level file w)) !! p = files w !! p.
Proof.
  intros Hp Hq. unfold create_course.
  destruct (endswith (filename file) ".pdf"); simpl; [|done].
  unfold mbind at 1, exec_bind, write_bytes.
  unfold mbind at 1, exec_bind, datetime_now. simpl.
  unfold mbind at 1, exec_bind. simpl.
  set (w1 := World _ _ _).
  assert (files w1 !! p = files w !! p) as Hw1 by (simpl; by rewrite lookup_insert_ne).
  destruct (read_courses_world w1) as [[doc|e] Hdoc];
    unfold mbind at 1, exec_bind; rewrite Hdoc; [|done].
  unfold mbind at 1, exec_bind, lift.
  destruct (append doc _) as [courses|e]; [|done].
  unfold mbind, exec_bind. rewrite write_courses_run. simpl.
  by rewrite lookup_insert_ne.
Qed.

(** Whatever they answer, [update_course] and [delete_course] change
    nothing at a path, in its normal spelling, other than the table file,
    and [create_course], for an upload with a plain file name, nothing at
    a path other than the table file and the path it writes the upload to:
    every other file, the uploads of other records among them, is as it
    was.  [delete_course] does not read the clock. *)
Theorem mutations_frame (w : world) (p : string) :
  normal_path p = true → p ≠ COURSES_FILE →
  (∀ course_name body,
     files (snd (update_course course_name body w)) !! p = files w !! p) ∧
  (∀ course_name,
     files (snd (delete_course course_name w)) !! p = files w !! p ∧
     clock (snd (delete_course course_name w)) = clock w ∧
     ticks (snd (delete_course course_name w)) = ticks w) ∧
  (∀ name description level file,
     plain_name (filename file) = true →
     p ≠ os_path_join UPLOAD_DIR (filename file) →
     files (snd (create_course name description level file w)) !! p = files w !! p).
Proof.
  intros _ Hp. split; [|split].
  - intros course_name body. unfold update_course, mbind, exec_bind.
    destruct (read_courses_world w) as [[doc|e] Hdoc]; rewrite Hdoc; [|done].
    unfold lift. destruct (iterate doc) as [elements|e]; [|done].
    by apply update_course_for_frame.
  - intros course_name. unfold delete_course, mbind, exec_bind.
    destruct (read_courses_world w) as [[doc|e] Hdoc]; rewrite Hdoc; [|done].
    unfold lift. destruct (iterate doc) as [elements|e]; [|done].
    by apply delete_course_for_frame.
  - intros name description level file _ Hq. by apply create_course_frame.
Qed.

Lemma mutations_frame_witness :
  (∀ course_name body,
     files (snd (update_course course_name body catalogue)) !! "pdf_files/algebra.pdf" =
     files catalogue !! "pdf_files/algebra.pdf") ∧
  (∀ course_name,
     files (snd (delete_course course_name catalogue)) !! "pdf_files/algebra.pdf" =
     files catalogue !! "pdf_files/algebra.pdf" ∧
     clock (snd (delete_course course_name catalogue)) = clock catalogue ∧
     ticks (snd (delete_course course_name catalogue)) = ticks catalogue) ∧
  (∀ name description level file,
     plain_name (filename file) = true →
     "pdf_files/algebra.pdf" ≠ os_path_join UPLOAD_DIR (filename file) →
     files (snd (create_course name description level file catalogue)) !! "pdf_files/algebra.pdf" =
     files catalogue !! "pdf_files/algebra.pdf").
Proof.
  apply (mutations_frame catalogue "pdf_files/algebra.pdf"); [reflexivity|discriminate].
Defined.

(** ** Create *)

(** A successful [create_course] was given a filename that ends with
    ".pdf" and found a list in the table file. *)
Lemma create_course_ok_inv (name description level : string) (file : UploadFile)
    (w w' : world) (c : Course) :
  create_course name description level file w = (Ok c, w') →
  endswith (filename file) ".pdf" = true ∧ ∃ courses, table w courses.
Proof.
  unfold create_course.
  destruct (endswith (filename file) ".pdf") eqn:Hpdf; simpl; [|discriminate].
  unfold mbind at 1, exec_bind, write_bytes.
  unfold mbind at 1, exec_bind, datetime_now. simpl.
  unfold mbind at 1, exec_bind. simpl.
  set (w1 := World _ _ _).
  destruct (read_courses_world w1) as [[doc|e] Hdoc];
    unfold mbind at 1, exec_bind; rewrite Hdoc; [|discriminate].
  unfold mbind at 1, exec_bind, lift, append.
  destruct doc as [| | | |xs|]; try discriminate.
  intros _. split; [done|]. exists xs. apply (table_ext w1); [|done].
  simpl. apply lookup_insert_ne. by apply upload_path_not_table.
Qed.

(** What a successful [create_course] has done, on a table. *)
Lemma create_course_ok (name description level : string) (file : UploadFile)
    (w w' : world) (c : Course) (courses : list json) :
  create_course name description level file w = (Ok c, w') → table w courses →
  endswith (filename file) ".pdf" = true ∧
  c = mkCourse name description (os_path_join UPLOAD_DIR (filename file))
               (Moment (clock w (ticks w))) (Moment (clock w (S (ticks w)))) level ∧
  w' = World (<[COURSES_FILE := Document (JList (courses ++ [stored c])%list)]>
              (<[pdf_path c := Content (content file)]> (files w)))
             (clock w) (S (S (ticks w))).
Proof.
  intros Hrun Ht. destruct (create_course_ok_inv _ _ _ _ _ _ _ Hrun) as [Hpdf _].
  rewrite (create_course_run name description level file w courses Hpdf Ht) in Hrun.
  by injection Hrun as <- <-.
Qed.

(** The upload of a successful [create_course] is at the [pdf_path] of the
    record. *)
Lemma create_course_stored_file (upload p : string) (bytes : list byte) (doc : json)
    (fs : gmap string file) (k : nat → datetime) (t : nat) :
  endswith upload ".pdf" = true → p = os_path_join UPLOAD_DIR upload →
  files (World (<[COURSES_FILE := Document doc]> (<[p := Content bytes]> fs)) k t) !! p =
  Some (Content bytes).
Proof.
  intros Hpdf ->. simpl.
  rewrite lookup_insert_ne by (apply not_eq_sym; by apply upload_path_not_table).
  apply lookup_insert_eq.
Qed.

(** A [create_course] call that succeeds, on a table, has stored the upload
    at [os.path.join(UPLOAD_DIR, filename)], replacing what was there, has
    read the clock twice, and has written the table with the new record
    after all the records it had, which stay as they were and in their
    order, whether or not one of them has the same name.  It returns the
    new record. *)
Theorem create_course_appends (name description level : string) (file : UploadFile)
    (w w' : world) (c : Course) (courses : list json) :
  create_course name description level file w = (Ok c, w') → table w courses →
  c = mkCourse name description (os_path_join UPLOAD_DIR (filename file))
               (Moment (clock w (ticks w))) (Moment (clock w (S (ticks w)))) level ∧
  table w' (courses ++ [stored c])%list ∧
  files w' !! pdf_path c = Some (Content (content file)) ∧
  ticks w' = S (S (ticks w)).
Proof.
  intros Hrun Ht. destruct (create_course_ok _ _ _ _ _ _ _ _ Hrun Ht) as (Hpdf & Hc & ->).
  split; [done|]. split; [apply read_after_write|]. split; [|done].
  apply create_course_stored_file with (filename file); [done|by rewrite Hc].
Qed.

Lemma create_course_appends_witness :
  ∃ c w',
    create_course "Algebra" "Matrices" "Bac" algebra_pdf catalogue = (Ok c, w') ∧
    c = mkCourse "Algebra" "Matrices" (os_path_join UPLOAD_DIR (filename algebra_pdf))
                 (Moment (clock catalogue (ticks catalogue)))
                 (Moment (clock catalogue (S (ticks catalogue)))) "Bac" ∧
    table w' ([analysis_record; algebra_record; algebra_again] ++ [stored c])%list ∧
    files w' !! pdf_path c = Some (Content (content algebra_pdf)) ∧
    ticks w' = S (S (ticks catalogue)).
Proof.
  do 2 eexists. split; [vm_compute; reflexivity|].
  eapply (create_course_appends "Algebra" "Matrices" "Bac" algebra_pdf catalogue).
  - vm_compute. reflexivity.
  - reflexivity.
Defined.

(** ** Lookup *)

(** [get_course] returns the first record of the table that has the
    requested name, also when later records have it too, and leaves the
    world as it is. *)
Theorem get_course_first_match (w : world) (before after : list json) (course : json)
    (course_name : string) :
  table w (before ++ course :: after)%list →
  Forall (other_name course_name) before → named course_name course →
  get_course course_name w = (Ok course, w).
Proof.
  intros Ht Hb Hc. rewrite (get_course_on_table _ _ _ Ht).
  by rewrite get_course_for_hit.
Qed.

Lemma get_course_first_match_witness :
  get_course "Algebra" catalogue = (Ok algebra_record, catalogue).
Proof.
  apply (get_course_first_match catalogue [analysis_record] [algebra_again]
           algebra_record "Algebra").
  - reflexivity.
  - other_names.
  - reflexivity.
Defined.

(** ** Records that lack a field *)

Section broken.
Variable course_name : string.
Variable e : exn.

Lemma get_course_for_broken (before after : list json) (course : json) :
  Forall (other_name course_name) before → getitem course "name" = Raise e →
  get_course_for course_name (before ++ course :: after)%list = Raise e.
Proof.
  intros Hb Hc. induction Hb as [|c before (n & Hn & Hne) _ IH]; simpl.
  - by rewrite Hc.
  - rewrite Hn. apply eq_str_false in Hne. by rewrite Hne.
Qed.

Lemma update_course_for_broken (body : Course) (courses before after : list json)
    (course : json) (index : nat) (w : world) :
  Forall (other_name course_name) before → getitem course "name" = Raise e →
  update_course_for course_name body courses index (before ++ course :: after)%list w =
  (Raise e, w).
Proof.
  intros Hb Hc. revert index.
  induction Hb as [|c before (n & Hn & Hne) _ IH]; intros index; simpl;
    unfold mbind, exec_bind, lift.
  - by rewrite Hc.
  - rewrite Hn. apply eq_str_false in Hne. rewrite Hne. apply IH.
Qed.

Lemma delete_course_for_broken (courses before after : list json)
    (course : json) (index : nat) (w : world) :
  Forall (other_name course_name) before → getitem course "name" = Raise e →
  delete_course_for course_name courses index (before ++ course :: after)%list w =
  (Raise e, w).
Proof.
  intros Hb Hc. revert index.
  induction Hb as [|c before (n & Hn & Hne) _ IH]; intros index; simpl;
    unfold mbind, exec_bind, lift.
  - by rewrite Hc.
  - rewrite Hn. apply eq_str_false in Hne. rewrite Hne. apply IH.
Qed.

Lemma download_course_file_for_broken (before after : list json) (course : json) (w : world) :
  Forall (other_name course_name) before → getitem course "name" = Raise e →
  download_course_file_for course_name (before ++ course :: after)%list w = (Raise e, w).
Proof.
  intros Hb Hc.
  induction Hb as [|c before (n & Hn & Hne) _ IH]; simpl; unfold mbind, exec_bind, lift.
  - by rewrite Hc.
  - rewrite Hn. apply eq_str_false in Hne. by rewrite Hne.
Qed.

Lemma update_course_for_no_created_at (body : Course) (courses before after : list json)
    (course : json) (index : nat) (w : world) :
  Forall (other_name course_name) before → named course_name course →
  getitem course "created_at" = Raise e →
  update_course_for course_name body courses index (before ++ course :: after)%list w =
  (Raise e, w).
Proof.
  intros Hb Hc Hcreated. revert index.
  induction Hb as [|c before (n & Hn & Hne) _ IH]; intros index; simpl;
    unfold mbind, exec_bind, lift.
  - rewrite Hc. simpl. rewrite String.eqb_refl. by rewrite Hcreated.
  - rewrite Hn. apply eq_str_false in Hne. rewrite Hne. apply IH.
Qed.

Lemma download_course_file_for_no_pdf_path (before after : list json) (course : json)
    (w : world) :
  Forall (other_name course_name) before → named course_name course →
  getitem course "pdf_path" = Raise e →
  download_course_file_for course_name (before ++ course :: after)%list w = (Raise e, w).
Proof.
  intros Hb Hc Hp.
  induction Hb as [|c before (n & Hn & Hne) _ IH]; simpl; unfold mbind, exec_bind, lift.
  - rewrite Hc. simpl. rewrite String.eqb_refl. by rewrite Hp.
  - rewrite Hn. apply eq_str_false in Hne. by rewrite Hne.
Qed.
End broken.

(** A dictionary has no entry for a key that none of its items carries. *)
Lemma dict_get_missing (items : list (string * json)) (key : string) :
  Forall (λ kv, fst kv ≠ key) items → dict_get items key = Raise (KeyError key).
Proof.
  induction 1 as [|[k v] items Hk _ IH]; [done|]. simpl in *.
  apply String.eqb_neq in Hk. by rewrite Hk.
Qed.

(** When the scan meets an element from which no name can be read before
    it finds the requested name, every handler that scans the table stops
    there with the exception of that reading, and changes nothing: for a
    record without a "name" entry that is [KeyError], the requested name
    being in the table further on or not. *)
Theorem scan_stops_at_nameless (w : world) (before after : list json) (course : json)
    (course_name : string) (e : exn) :
  table w (before ++ course :: after)%list →
  Forall (other_name course_name) before → getitem course "name" = Raise e →
  get_course course_name w = (Raise e, w) ∧
  (∀ body, update_course course_name body w = (Raise e, w)) ∧
  delete_course course_name w = (Raise e, w) ∧
  download_course_file course_name w = (Raise e, w) ∧
  (∀ items, course = JDict items → Forall (λ kv, fst kv ≠ "name") items →
            e = KeyError "name").
Proof.
  intros Ht Hb Hc. split; [|split; [|split; [|split]]].
  - rewrite (get_course_on_table _ _ _ Ht). by rewrite (get_course_for_broken _ e).
  - intros body. unfold update_course. rewrite (on_table _ w _ Ht).
    by apply update_course_for_broken.
  - unfold delete_course. rewrite (on_table _ w _ Ht).
    by apply delete_course_for_broken.
  - unfold download_course_file. rewrite (on_table _ w _ Ht).
    by apply download_course_file_for_broken.
  - intros items -> Hitems. simpl in Hc. rewrite (dict_get_missing _ _ Hitems) in Hc.
    by injection Hc.
Qed.

Lemma scan_stops_at_nameless_witness :
  get_course "Algebra" damaged_catalogue = (Raise (KeyError "name"), damaged_catalogue) ∧
  (∀ body, update_course "Algebra" body damaged_catalogue =
           (Raise (KeyError "name"), damaged_catalogue)) ∧
  delete_course "Algebra" damaged_catalogue = (Raise (KeyError "name"), damaged_catalogue) ∧
  download_course_file "Algebra" damaged_catalogue =
    (Raise (KeyError "name"), damaged_catalogue) ∧
  (∀ items, nameless_record = JDict items → Forall (λ kv, fst kv ≠ "name") items →
            KeyError "name" = KeyError "name").
Proof.
  apply (scan_stops_at_nameless damaged_catalogue [analysis_record] [algebra_record]
           nameless_record "Algebra" (KeyError "name")).
  - reflexivity.
  - other_names.
  - reflexivity.
Defined.

(** On a record that has the requested name but lacks a field the handler
    reads, the handler stops with the exception of that reading and changes
    nothing: [update_course] on a record without "created_at" writes no
    table and does not read the clock, [download_course_file] on a record
    without "pdf_path" answers no file.  [get_course] and [delete_course]
    read the name only, and do their work on such a record. *)
Theorem missing_field_of_match (w : world) (before after : list json) (course : json)
    (course_name : string) (e : exn) :
  table w (before ++ course :: after)%list →
  Forall (other_name course_name) before → named course_name course →
  (getitem course "created_at" = Raise e →
   ∀ body, update_course course_name body w = (Raise e, w)) ∧
  (getitem course "pdf_path" = Raise e →
   download_course_file course_name w = (Raise e, w)) ∧
  get_course course_name w = (Ok course, w) ∧
  (∃ w', delete_course course_name w = (Ok course, w') ∧ table w' (before ++ after)%list).
Proof.
  intros Ht Hb Hc. split; [|split; [|split]].
  - intros Hcreated body. unfold update_course. rewrite (on_table _ w _ Ht).
    by apply update_course_for_no_created_at.
  - intros Hp. unfold download_course_file. rewrite (on_table _ w _ Ht).
    by apply download_course_file_for_no_pdf_path.
  - rewrite (get_course_on_table _ _ _ Ht). by rewrite get_course_for_hit.
  - eexists. split; [|apply read_after_write].
    unfold delete_course. rewrite (on_table _ w _ Ht).
    apply (delete_course_for_hit course_name [] before after course w Hb Hc).
Qed.

Lemma missing_field_of_match_witness :
  (∀ body, update_course "Topology" body bare_catalogue =
           (Raise (KeyError "created_at"), bare_catalogue)) ∧
  download_course_file "Topology" bare_catalogue =
    (Raise (KeyError "pdf_path"), bare_catalogue) ∧
  get_course "Topology" bare_catalogue = (Ok bare_record, bare_catalogue) ∧
  (∃ w', delete_course "Topology" bare_catalogue = (Ok bare_record, w') ∧
         table w' ([analysis_record] ++ [])%list).
Proof.
  destruct (missing_field_of_match bare_catalogue [analysis_record] [] bare_record
              "Topology" (KeyError "created_at")) as (Hu & _ & Hg & Hd);
    [reflexivity|other_names|reflexivity|].
  destruct (missing_field_of_match bare_catalogue [analysis_record] [] bare_record
              "Topology" (KeyError "pdf_path")) as (_ & Hp & _ & _);
    [reflexivity|other_names|reflexivity|].
  split; [apply Hu; reflexivity|]. split; [apply Hp; reflexivity|]. by split.
Defined.

(** ** A table file that does not hold a list *)

(** The elements that a scan visits in a document that is not a list are
    strings, from which no name can be read. *)
Lemma iterate_non_list (doc : json) (elements : list json) :
  (∀ xs, doc ≠ JList xs) → iterate doc = Ok elements →
  Forall (λ x, getitem x "name" = Raise TypeError) elements.
Proof.
  intros Hdoc. destruct doc as [| | |s|xs|items]; simpl; try discriminate.
  - intros [= <-]. induction (list_ascii_of_string s); simpl;
      [apply List.Forall_nil|by apply List.Forall_cons].
  - by destruct (Hdoc xs).
  - intros [= <-]. clear Hdoc. induction items; simpl; [apply List.Forall_nil|by apply List.Forall_cons].
Qed.

(** When the table file holds a JSON document that is not a list,
    [create_course] never succeeds.  A call that gets as far as
    [courses.append] fails there with [AttributeError], after it has stored
    the upload: the file stays on disk without a record, and the table file
    is as it was. *)
Theorem create_course_on_non_list (name description level : string) (file : UploadFile)
    (w : world) (doc : json) :
  files w !! COURSES_FILE = Some (Document doc) → (∀ xs, doc ≠ JList xs) →
  (∀ c w', create_course name description level file w ≠ (Ok c, w')) ∧
  (∀ w', create_course name description level file w = (Raise AttributeError, w') →
         files w' !! COURSES_FILE = Some (Document doc) ∧
         files w' !! os_path_join UPLOAD_DIR (filename file) = Some (Content (content file))).
Proof.
  intros Hfile Hdoc.
  assert (endswith (filename file) ".pdf" = true →
          let w1 := World (<[os_path_join UPLOAD_DIR (filename file) := Content (content file)]>
                           (files w)) (clock w) (S (S (ticks w))) in
          create_course name description level file w = (Raise AttributeError, w1) ∧
          files w1 !! COURSES_FILE = Some (Document doc)) as Hrun.
  { intros Hpdf w1.
    assert (files w1 !! COURSES_FILE = Some (Document doc)) as Hw1.
    { simpl. rewrite lookup_insert_ne; [done|]. by apply upload_path_not_table. }
    split; [|done]. unfold create_course. rewrite Hpdf. simpl.
    unfold mbind at 1, exec_bind, write_bytes.
    unfold mbind at 1, exec_bind, datetime_now. simpl.
    unfold mbind at 1, exec_bind. simpl. fold w1.
    unfold mbind at 1, exec_bind. rewrite (read_courses_document w1 doc Hw1).
    unfold mbind, exec_bind, lift, append.
    destruct doc; try done. by destruct (Hdoc xs). }
  destruct (endswith (filename file) ".pdf") eqn:Hpdf.
  - destruct (Hrun eq_refl) as [Hfail Hw1]. rewrite Hfail. split; [by intros c w'|].
    intros w' [= <-]. split; [done|]. apply lookup_insert_eq.
  - unfold create_course. rewrite Hpdf. simpl. split; [by intros c w'|]. by intros w'.
Qed.

Lemma create_course_on_non_list_witness :
  (∀ c w', create_course "Algebra" "Groups and rings" "Bac" algebra_pdf object_world ≠
           (Ok c, w')) ∧
  ∃ w', create_course "Algebra" "Groups and rings" "Bac" algebra_pdf object_world =
          (Raise AttributeError, w') ∧
        files w' !! COURSES_FILE = Some (Document (JDict [("courses", JList [algebra_record])])) ∧
        files w' !! os_path_join UPLOAD_DIR (filename algebra_pdf) =
          Some (Content (content algebra_pdf)).
Proof.
  destruct (create_course_on_non_list "Algebra" "Groups and rings" "Bac" algebra_pdf
              object_world (JDict [("courses", JList [algebra_record])]))
    as [Hnever Hfail]; [reflexivity|discriminate|].
  split; [exact Hnever|]. eexists. split; [vm_compute; reflexivity|].
  apply Hfail. vm_compute. reflexivity.
Defined.

(** When the table file holds a JSON document that is neither a list nor
    empty, the four handlers that scan the table fail with [TypeError]
    whatever name is asked for, and change nothing: a number, a boolean or
    null cannot be iterated, and the elements of an object or of a string
    are strings, which have no "name" entry. *)
Theorem scan_of_non_list (w : world) (doc : json) (course_name : string) :
  files w !! COURSES_FILE = Some (Document doc) →
  (∀ xs, doc ≠ JList xs) → doc ≠ JDict [] → doc ≠ JStr "" →
  get_course course_name w = (Raise TypeError, w) ∧
  (∀ body, update_course course_name body w = (Raise TypeError, w)) ∧
  delete_course course_name w = (Raise TypeError, w) ∧
  download_course_file course_name w = (Raise TypeError, w).
Proof.
  intros Hfile Hdoc Hdict Hstr.
  pose proof (read_courses_document w doc Hfile) as Hread.
  unfold get_course, update_course, delete_course, download_course_file.
  unfold mbind, exec_bind. rewrite Hread. unfold lift.
  destruct (iterate doc) as [elements|e] eqn:Hit.
  - pose proof (iterate_non_list doc elements Hdoc Hit) as Hel.
    destruct elements as [|x elements].
    { destruct doc as [| | |[|c s]|xs|[|kv items]]; try discriminate.
      - by destruct Hstr.
      - by destruct (Hdoc xs).
      - by destruct Hdict. }
    apply Forall_cons in Hel as [Hx _]. simpl. unfold mbind, exec_bind, lift.
    by rewrite Hx.
  - destruct doc; try discriminate; simpl in Hit; by injection Hit as <-.
Qed.

Lemma scan_of_non_list_witness :
  get_course "Algebra" object_world = (Raise TypeError, object_world) ∧
  (∀ body, update_course "Algebra" body object_world = (Raise TypeError, object_world)) ∧
  delete_course "Algebra" object_world = (Raise TypeError, object_world) ∧
  download_course_file "Algebra" object_world = (Raise TypeError, object_world).
Proof.
  apply (scan_of_non_list object_world (JDict [("courses", JList [algebra_record])]) "Algebra").
  - reflexivity.
  - discriminate.
  - discriminate.
  - discriminate.
Defined.

(** ** How the handlers compose *)

Lemma download_course_file_run (w : world) (before after : list json) (course : json)
    (course_name p : string) :
  table w (before ++ course :: after)%list →
  Forall (other_name course_name) before → named course_name course →
  getitem course "pdf_path" = Ok (JStr p) →
  download_course_file course_name w =
  match files w !! p with
  | Some _ => (Ok (mkFileResponse p "application/pdf" (Path_name p)), w)
  | None => (Raise (HTTPException 404 "Fichier PDF non trouvé"), w)
  end.
Proof.
  intros Ht Hb Hc Hp. unfold download_course_file. rewrite (on_table _ w _ Ht).
  by apply download_course_file_for_hit.
Qed.

(** The record of a [Course] object carries its name. *)
Lemma stored_named (c : Course) : named (name c) (stored c).
Proof. reflexivity. Qed.

Lemma stored_other_name (c : Course) (course_name : string) :
  name c ≠ course_name → other_name course_name (stored c).
Proof. intros H. exists (JStr (name c)). split; [done|]. by intros [=]. Qed.

(** [create_course] does not look for the name in the table: a call that
    succeeds with a name that a record already has adds a second record
    with that name after it, and [get_course] goes on answering with the
    first one. *)
Theorem create_course_duplicate_name (name description level : string) (file : UploadFile)
    (w w' : world) (c : Course) (before after : list json) (old : json) :
  create_course name description level file w = (Ok c, w') →
  table w (before ++ old :: after)%list →
  Forall (other_name name) before → named name old →
  table w' (before ++ old :: after ++ [stored c])%list ∧
  named name (stored c) ∧
  get_course name w' = (Ok old, w').
Proof.
  intros Hrun Ht Hb Hold.
  destruct (create_course_ok _ _ _ _ _ _ _ _ Hrun Ht) as (Hpdf & Hc & Hw').
  assert (table w' (before ++ old :: after ++ [stored c])%list) as Ht'.
  { rewrite Hw'. rewrite <- app_assoc. simpl. apply read_after_write. }
  split; [exact Ht'|]. split; [by rewrite Hc|].
  rewrite (get_course_on_table _ _ _ Ht'). by rewrite get_course_for_hit.
Qed.

Lemma create_course_duplicate_name_witness :
  ∃ c w',
    create_course "Algebra" "Matrices" "Bac" algebra_pdf catalogue = (Ok c, w') ∧
    table w' ([analysis_record] ++ algebra_record :: [algebra_again] ++ [stored c])%list ∧
    named "Algebra" (stored c) ∧
    get_course "Algebra" w' = (Ok algebra_record, w').
Proof.
  do 2 eexists. split; [vm_compute; reflexivity|].
  eapply (create_course_duplicate_name "Algebra" "Matrices" "Bac" algebra_pdf catalogue).
  - vm_compute. reflexivity.
  - reflexivity.
  - other_names.
  - reflexivity.
Defined.

(** Two uploads with the same filename share one stored file: when both
    [create_course] calls succeed, the second has replaced the content of
    the first, both records point to the same path, and a download of the
    first course answers with the content of the second upload. *)
Theorem second_upload_replaces_first (name1 description1 level1 : string)
    (name2 description2 level2 : string) (file1 file2 : UploadFile)
    (w w1 w2 : world) (c1 c2 : Course) (courses : list json) :
  create_course name1 description1 level1 file1 w = (Ok c1, w1) →
  create_course name2 description2 level2 file2 w1 = (Ok c2, w2) →
  filename file2 = filename file1 →
  table w courses → Forall (other_name name1) courses →
  pdf_path c2 = pdf_path c1 ∧
  ∃ r, download_course_file name1 w2 = (Ok r, w2) ∧
       path r = pdf_path c1 ∧
       body w2 r = Some (Content (content file2)).
Proof.
  intros H1 H2 Hsame Ht Hmiss.
  destruct (create_course_ok _ _ _ _ _ _ _ _ H1 Ht) as (Hpdf1 & Hc1 & Hw1).
  assert (table w1 (courses ++ [stored c1])%list) as Ht1
    by (rewrite Hw1; apply read_after_write).
  destruct (create_course_ok _ _ _ _ _ _ _ _ H2 Ht1) as (Hpdf2 & Hc2 & Hw2).
  assert (pdf_path c2 = pdf_path c1) as Hpath by (rewrite Hc1, Hc2; simpl; by rewrite Hsame).
  assert (table w2 (courses ++ stored c1 :: [stored c2])%list) as Ht2.
  { replace (courses ++ stored c1 :: [stored c2])%list
      with ((courses ++ [stored c1]) ++ [stored c2])%list by (by rewrite <- app_assoc).
    rewrite Hw2. apply read_after_write. }
  assert (files w2 !! pdf_path c1 = Some (Content (content file2))) as Hfile.
  { rewrite Hw2, <- Hpath. apply create_course_stored_file with (filename file2); [done|by rewrite Hc2]. }
  split; [exact Hpath|].
  exists (mkFileResponse (pdf_path c1) "application/pdf" (Path_name (pdf_path c1))).
  split; [|split; [done|exact Hfile]].
  rewrite (download_course_file_run w2 courses [stored c2] (stored c1) name1 (pdf_path c1)
             Ht2 Hmiss).
  - by rewrite Hfile.
  - rewrite Hc1. reflexivity.
  - reflexivity.
Qed.

Lemma second_upload_replaces_first_witness :
  ∃ c1 w1 c2 w2,
    create_course "Topology" "Open sets" "Bac" (mkUploadFile "notes.pdf" [x01]%byte)
      catalogue = (Ok c1, w1) ∧
    create_course "Logic" "Proofs" "Bac" (mkUploadFile "notes.pdf" [x02; x03]%byte)
      w1 = (Ok c2, w2) ∧
    pdf_path c2 = pdf_path c1 ∧
    ∃ r, download_course_file "Topology" w2 = (Ok r, w2) ∧
         path r = pdf_path c1 ∧
         body w2 r = Some (Content (content (mkUploadFile "notes.pdf" [x02; x03]%byte))).
Proof.
  do 4 eexists. split; [vm_compute; reflexivity|]. split; [vm_compute; reflexivity|].
  eapply (second_upload_replaces_first "Topology" "Open sets" "Bac" "Logic" "Proofs" "Bac"
            (mkUploadFile "notes.pdf" [x01]%byte) (mkUploadFile "notes.pdf" [x02; x03]%byte)
            catalogue).
  - vm_compute. reflexivity.
  - vm_compute. reflexivity.
  - reflexivity.
  - reflexivity.
  - other_names.
Defined.

(** After a [create_course] that succeeds with a name that no record of the
    table has, [get_course] for that name answers with the new record, and
    [download_course_file] with the bytes that were uploaded, under the
    last component of the stored path; for an upload with a plain name
    that is the name of the upload. *)
Theorem create_then_download (name description level : string) (file : UploadFile)
    (w w' : world) (c : Course) (courses : list json) :
  create_course name description level file w = (Ok c, w') →
  table w courses → Forall (other_name name) courses →
  get_course name w' = (Ok (stored c), w') ∧
  ∃ r, download_course_file name w' = (Ok r, w') ∧
       path r = pdf_path c ∧
       body w' r = Some (Content (content file)) ∧
       attachment r = Path_name (pdf_path c) ∧
       (plain_name (filename file) = true → attachment r = filename file).
Proof.
  intros Hrun Ht Hmiss.
  destruct (create_course_ok _ _ _ _ _ _ _ _ Hrun Ht) as (Hpdf & Hc & Hw').
  assert (table w' (courses ++ stored c :: [])%list) as Ht'
    by (rewrite Hw'; apply read_after_write).
  assert (files w' !! pdf_path c = Some (Content (content file))) as Hfile.
  { rewrite Hw'. apply create_course_stored_file with (filename file); [done|by rewrite Hc]. }
  assert (named name (stored c)) as Hnamed by (by rewrite Hc).
  split.
  - rewrite (get_course_on_table _ _ _ Ht').
    by rewrite (get_course_for_hit name courses [] (stored c) Hmiss Hnamed).
  - exists (mkFileResponse (pdf_path c) "application/pdf" (Path_name (pdf_path c))).
    split; [|split; [done|split; [exact Hfile|split; [done|]]]].
    + rewrite (download_course_file_run w' courses [] (stored c) name (pdf_path c)
                 Ht' Hmiss Hnamed eq_refl).
      by rewrite Hfile.
    + intros Hplain. simpl. rewrite Hc. simpl. by apply upload_path_name.
Qed.

Lemma create_then_download_witness :
  ∃ c w',
    create_course "Topology" "Open sets" "Bac" (mkUploadFile "topology.pdf" [x25; x50]%byte)
      catalogue = (Ok c, w') ∧
    get_course "Topology" w' = (Ok (stored c), w') ∧
    ∃ r, download_course_file "Topology" w' = (Ok r, w') ∧
         path r = pdf_path c ∧
         body w' r = Some (Content (content (mkUploadFile "topology.pdf" [x25; x50]%byte))) ∧
         attachment r = Path_name (pdf_path c) ∧
         (plain_name (filename (mkUploadFile "topology.pdf" [x25; x50]%byte)) = true →
          attachment r = filename (mkUploadFile "topology.pdf" [x25; x50]%byte)).
Proof.
  do 2 eexists. split; [vm_compute; reflexivity|].
  eapply (create_then_download "Topology" "Open sets" "Bac"
            (mkUploadFile "topology.pdf" [x25; x50]%byte) catalogue).
  - vm_compute. reflexivity.
  - reflexivity.
  - other_names.
Defined.

(** After [delete_course] has removed the first record with a name, the
    name is gone when no later record has it: [get_course] and a second
    [delete_course] fail with NotFound, and [download_course_file] too,
    though the uploaded file is still on disk.  When a later record has the
    same name, that record is the one the handlers now find. *)
Theorem delete_then_lookup (w : world) (before after : list json) (course : json)
    (course_name : string) :
  table w (before ++ course :: after)%list →
  Forall (other_name course_name) before → named course_name course →
  ∃ w',
    delete_course course_name w = (Ok course, w') ∧
    (Forall (other_name course_name) after →
     get_course course_name w' = (Raise (HTTPException 404 "Course not found"), w') ∧
     delete_course course_name w' = (Raise (HTTPException 404 "Course not found"), w') ∧
     download_course_file course_name w' = (Raise (HTTPException 404 "Cours non trouvé"), w')) ∧
    (∀ between next rest,
       after = (between ++ next :: rest)%list →
       Forall (other_name course_name) between → named course_name next →
       get_course course_name w' = (Ok next, w')).
Proof.
  intros Ht Hb Hc. eexists. split.
  { unfold delete_course. rewrite (on_table _ w _ Ht).
    apply (delete_course_for_hit course_name [] before after course w Hb Hc). }
  simpl. set (w' := World _ _ _).
  assert (table w' (before ++ after)%list) as Ht' by apply read_after_write.
  split.
  - intros Ha. assert (Forall (other_name course_name) (before ++ after)%list) as Hall
      by (by apply Forall_app).
    split; [|split].
    + rewrite (get_course_on_table _ _ _ Ht'). by rewrite get_course_for_miss.
    + unfold delete_course. rewrite (on_table _ w' _ Ht'). by apply delete_course_for_miss.
    + unfold download_course_file. rewrite (on_table _ w' _ Ht').
      by apply download_course_file_for_miss.
  - intros between next rest -> Hbetween Hnext.
    rewrite app_assoc in Ht'. rewrite (get_course_on_table _ _ _ Ht').
    rewrite get_course_for_hit; [done|by apply Forall_app|done].
Qed.

Lemma delete_then_lookup_witness :
  (∃ w', delete_course "Algebra" catalogue = (Ok algebra_record, w') ∧
         get_course "Algebra" w' = (Ok algebra_again, w')) ∧
  (∃ w', delete_course "Analysis" catalogue = (Ok analysis_record, w') ∧
         get_course "Analysis" w' = (Raise (HTTPException 404 "Course not found"), w') ∧
         delete_course "Analysis" w' = (Raise (HTTPException 404 "Course not found"), w') ∧
         download_course_file "Analysis" w' =
           (Raise (HTTPException 404 "Cours non trouvé"), w')).
Proof.
  split.
  - destruct (delete_then_lookup catalogue [analysis_record] [algebra_again]
                algebra_record "Algebra") as (w' & Hdel & _ & Hnext);
      [reflexivity|other_names|reflexivity|].
    exists w'. split; [exact Hdel|].
    apply (Hnext [] algebra_again []); [reflexivity|constructor|reflexivity].
  - destruct (delete_then_lookup catalogue [] [algebra_record; algebra_again]
                analysis_record "Analysis") as (w' & Hdel & Hgone & _);
      [reflexivity|constructor|reflexivity|].
    exists w'. split; [exact Hdel|]. apply Hgone. other_names.
Defined.

(** After [update_course], the record is found under the name of the
    request body, provided no earlier record has that name; when the body
    carries another name than the one requested, and no later record has
    the requested name, that name is gone from the table. *)
Theorem update_then_get (w : world) (before after : list json) (course created : json)
    (course_name : string) (body : Course) :
  table w (before ++ course :: after)%list →
  Forall (other_name course_name) before → named course_name course →
  getitem course "created_at" = Ok created →
  Forall (other_name (name body)) before →
  ∃ updated w',
    update_course course_name body w = (Ok updated, w') ∧
    get_course (name body) w' = (Ok (stored updated), w') ∧
    (name body ≠ course_name → Forall (other_name course_name) after →
     get_course course_name w' = (Raise (HTTPException 404 "Course not found"), w')).
Proof.
  intros Ht Hb Hc Hcreated Hb'. do 2 eexists.
  split; [by apply update_course_run with course|].
  set (updated := replacement _ _ _). set (w' := World _ _ _).
  assert (table w' (before ++ stored updated :: after)%list) as Ht' by apply read_after_write.
  split.
  - rewrite (get_course_on_table _ _ _ Ht').
    by rewrite (get_course_for_hit (name body) before after (stored updated) Hb').
  - intros Hne Ha. rewrite (get_course_on_table _ _ _ Ht').
    rewrite get_course_for_miss; [done|].
    apply Forall_app. split; [done|]. apply Forall_cons. split; [|done].
    by apply stored_other_name.
Qed.

Lemma update_then_get_witness :
  ∃ updated w',
    update_course "Analysis" geometry_body catalogue = (Ok updated, w') ∧
    get_course "Geometry" w' = (Ok (stored updated), w') ∧
    (name geometry_body ≠ "Analysis" →
     Forall (other_name "Analysis") [algebra_record; algebra_again] →
     get_course "Analysis" w' = (Raise (HTTPException 404 "Course not found"), w')).
Proof.
  apply (update_then_get catalogue [] [algebra_record; algebra_again] analysis_record
           (JStr "2024-08-30 10:00:00") "Analysis" geometry_body).
  - reflexivity.
  - constructor.
  - reflexivity.
  - reflexivity.
  - constructor.
Defined.

(** [update_course] does not look at the file system: it stores whatever
    [pdf_path] the request body carries.  When that path, in its normal
    spelling, names nothing, neither a file nor a directory, the update
    succeeds all the same, and a download of the record then fails with
    the NotFound of a missing file. *)
Theorem update_to_missing_file (w : world) (before after : list json)
    (course created : json) (course_name : string) (body : Course) :
  table w (before ++ course :: after)%list →
  Forall (other_name course_name) before → named course_name course →
  getitem course "created_at" = Ok created →
  Forall (other_name (name body)) before →
  normal_path (pdf_path body) = true →
  pdf_path body ≠ COURSES_FILE → files w !! pdf_path body = None →
  ∃ updated w',
    update_course course_name body w = (Ok updated, w') ∧
    getitem (stored updated) "pdf_path" = Ok (JStr (pdf_path body)) ∧
    download_course_file (name body) w' =
      (Raise (HTTPException 404 "Fichier PDF non trouvé"), w').
Proof.
  intros Ht Hb Hc Hcreated Hb' _ Hp Hnone. do 2 eexists.
  split; [by apply update_course_run with course|].
  set (updated := replacement _ _ _). set (w' := World _ _ _).
  assert (table w' (before ++ stored updated :: after)%list) as Ht' by apply read_after_write.
  split; [done|].
  rewrite (download_course_file_run w' before after (stored updated) (name body)
             (pdf_path body) Ht' Hb' (stored_named updated) eq_refl).
  subst w'. simpl. rewrite lookup_insert_ne by done. by rewrite Hnone.
Qed.

Lemma update_to_missing_file_witness :
  ∃ updated w',
    update_course "Algebra" geometry_body catalogue = (Ok updated, w') ∧
    getitem (stored updated) "pdf_path" = Ok (JStr (pdf_path geometry_body)) ∧
    download_course_file (name geometry_body) w' =
      (Raise (HTTPException 404 "Fichier PDF non trouvé"), w').
Proof.
  apply (update_to_missing_file catalogue [analysis_record] [algebra_again] algebra_record
           (JStr "2024-09-01 00:00:00") "Algebra" geometry_body).
  - reflexivity.
  - other_names.
  - reflexivity.
  - reflexivity.
  - other_names.
  - reflexivity.
  - discriminate.
  - reflexivity.
Defined.

(** The [pdf_path] of a request body is not kept to the upload directory
    either: after an update whose body names the table file, a download of
    the record answers with the table file itself, as the update has just
    written it, under the name "courses.json". *)
Theorem update_to_table_file (w : world) (before after : list json)
    (course created : json) (course_name : string) (request : Course) :
  table w (before ++ course :: after)%list →
  Forall (other_name course_name) before → named course_name course →
  getitem course "created_at" = Ok created →
  Forall (other_name (name request)) before →
  pdf_path request = COURSES_FILE →
  ∃ updated w' r,
    update_course course_name request w = (Ok updated, w') ∧
    download_course_file (name request) w' = (Ok r, w') ∧
    body w' r = Some (Document (JList (before ++ stored updated :: after)%list)) ∧
    attachment r = "courses.json".
Proof.
  intros Ht Hb Hc Hcreated Hb' Hp.
  pose proof (update_course_run w before after course created course_name request
                Ht Hb Hc Hcreated) as Hrun.
  set (updated := replacement _ _ _) in Hrun. set (w' := World _ _ _) in Hrun.
  assert (table w' (before ++ stored updated :: after)%list) as Ht' by apply read_after_write.
  assert (files w' !! COURSES_FILE =
          Some (Document (JList (before ++ stored updated :: after)%list))) as Hfile
    by apply lookup_insert_eq.
  exists updated, w', (mkFileResponse COURSES_FILE "application/pdf" (Path_name COURSES_FILE)).
  split; [done|]. split; [|split; [exact Hfile|reflexivity]].
  rewrite (download_course_file_run w' before after (stored updated) (name request)
             COURSES_FILE Ht' Hb' (stored_named updated)).
  - by rewrite Hfile.
  - subst updated. simpl. by rewrite Hp.
Qed.

Lemma update_to_table_file_witness :
  ∃ updated w' r,
    update_course "Algebra" table_body catalogue = (Ok updated, w') ∧
    download_course_file (name table_body) w' = (Ok r, w') ∧
    body w' r = Some (Document (JList ([analysis_record] ++ stored updated :: [algebra_again])%list)) ∧
    attachment r = "courses.json".
Proof.
  apply (update_to_table_file catalogue [analysis_record] [algebra_again] algebra_record
           (JStr "2024-09-01 00:00:00") "Algebra" table_body).
  - reflexivity.
  - other_names.
  - reflexivity.
  - reflexivity.
  - other_names.
  - reflexivity.
Defined.

(** ** Where an upload with a plain name goes *)

Lemma append_inv_head (p a b : string) : p ++ a = p ++ b → a = b.
Proof.
  induction p as [|c p IH]; [done|]. rewrite !append_cons. intros H.
  apply String_inj in H. by apply IH.
Qed.

(** When the filename of the upload is a plain name, without a separator,
    a successful [create_course] stores the upload in the upload directory
    under that name: the [pdf_path] of the record is the directory, a
    separator and the filename, its last component is the filename, the
    file at that path holds the uploaded bytes, and an upload with another
    plain name goes to another path. *)
Theorem create_course_plain_filename (name description level : string) (file : UploadFile)
    (w w' : world) (c : Course) :
  plain_name (filename file) = true →
  create_course name description level file w = (Ok c, w') →
  pdf_path c = UPLOAD_DIR ++ "/" ++ filename file ∧
  in_upload_dir (pdf_path c) = true ∧
  Path_name (pdf_path c) = filename file ∧
  files w' !! pdf_path c = Some (Content (content file)) ∧
  (∀ other, plain_name other = true →
            os_path_join UPLOAD_DIR other = pdf_path c → other = filename file).
Proof.
  intros Hplain Hrun.
  destruct (create_course_ok_inv _ _ _ _ _ _ _ Hrun) as [Hpdf [courses Ht]].
  rewrite (create_course_run name description level file w courses Hpdf Ht) in Hrun.
  injection Hrun as <- <-. simpl.
  split; [by apply upload_path_plain|].
  split; [rewrite (upload_path_plain _ Hplain); by destruct (filename file)|].
  split; [by apply upload_path_name|]. split.
  - rewrite lookup_insert_ne by (apply not_eq_sym; by apply upload_path_not_table).
    apply lookup_insert_eq.
  - intros other Hother. rewrite (upload_path_plain _ Hplain), (upload_path_plain _ Hother).
    intros H. apply append_inv_head in H. by apply append_inv_head in H.
Qed.

Lemma create_course_plain_filename_witness :
  ∃ c w',
    create_course "Algebra" "Groups and rings" "Bac" algebra_pdf empty_world = (Ok c, w') ∧
    pdf_path c = UPLOAD_DIR ++ "/" ++ filename algebra_pdf ∧
    in_upload_dir (pdf_path c) = true ∧
    Path_name (pdf_path c) = filename algebra_pdf ∧
    files w' !! pdf_path c = Some (Content (content algebra_pdf)) ∧
    (∀ other, plain_name other = true →
              os_path_join UPLOAD_DIR other = pdf_path c → other = filename algebra_pdf).
Proof.
  do 2 eexists. split; [vm_compute; reflexivity|].
  eapply (create_course_plain_filename "Algebra" "Groups and rings" "Bac" algebra_pdf
            empty_world).
  - reflexivity.
  - vm_compute. reflexivity.
Defined.

(** ** The creation time through updates *)

(** The [created_at] that a successful [create_course] stamps on a record
    comes back, from an update of that record, as the text that the table
    holds for it: the record that [update_course] returns and stores
    carries the string [str] made of the first clock reading of the
    creation, and a fresh [updated_at]. *)
Theorem create_then_update (name description level : string) (file : UploadFile)
    (request : Course) (w w1 : world) (c : Course) (courses : list json) :
  create_course name description level file w = (Ok c, w1) →
  table w courses → Forall (other_name name) courses →
  created_at c = Moment (clock w (ticks w)) ∧
  ∃ u w2,
    update_course name request w1 = (Ok u, w2) ∧
    created_at u = Plain (JStr (datetime_str (clock w (ticks w)))) ∧
    updated_at u = Moment (clock w (S (S (ticks w)))) ∧
    table w2 (courses ++ [stored u])%list.
Proof.
  intros Hrun Ht Hmiss.
  destruct (create_course_ok _ _ _ _ _ _ _ _ Hrun Ht) as (Hpdf & Hc & Hw1).
  assert (table w1 (courses ++ stored c :: [])%list) as Ht1
    by (rewrite Hw1; apply read_after_write).
  assert (named name (stored c)) as Hnamed by (by rewrite Hc).
  assert (getitem (stored c) "created_at" = Ok (JStr (datetime_str (clock w (ticks w)))))
    as Hcreated by (by rewrite Hc).
  pose proof (update_course_run w1 courses [] (stored c)
                (JStr (datetime_str (clock w (ticks w)))) name request
                Ht1 Hmiss Hnamed Hcreated) as H2.
  split; [by rewrite Hc|]. do 2 eexists. split; [exact H2|].
  rewrite Hw1. simpl. split; [done|]. split; [done|]. apply read_after_write.
Qed.

Lemma create_then_update_witness :
  ∃ c w1,
    create_course "Topology" "Open sets" "Bac" (mkUploadFile "topology.pdf" [x25; x50]%byte)
      catalogue = (Ok c, w1) ∧
    created_at c = Moment (clock catalogue (ticks catalogue)) ∧
    ∃ u w2,
      update_course "Topology" geometry_body w1 = (Ok u, w2) ∧
      created_at u = Plain (JStr (datetime_str (clock catalogue (ticks catalogue)))) ∧
      updated_at u = Moment (clock catalogue (S (S (ticks catalogue)))) ∧
      table w2 ([analysis_record; algebra_record; algebra_again] ++ [stored u])%list.
Proof.
  do 2 eexists. split; [vm_compute; reflexivity|].
  eapply (create_then_update "Topology" "Open sets" "Bac"
            (mkUploadFile "topology.pdf" [x25; x50]%byte) geometry_body catalogue).
  - vm_compute. reflexivity.
  - reflexivity.
  - other_names.
Defined.

(** A second update of a record, found again under the same name, still
    keeps the [created_at] the record had before the first one; only
    [updated_at] moves, to the clock reading of the second call, and the
    other fields are those of the second request body. *)
Theorem update_twice (w : world) (before after : list json) (course created : json)
    (course_name : string) (first second : Course) :
  table w (before ++ course :: after)%list →
  Forall (other_name course_name) before → named course_name course →
  getitem course "created_at" = Ok created →
  name first = course_name →
  ∃ u1 w1 u2 w2,
    update_course course_name first w = (Ok u1, w1) ∧
    update_course course_name second w1 = (Ok u2, w2) ∧
    u2 = replacement second created (clock w (S (ticks w))) ∧
    getitem (stored u2) "created_at" = Ok created ∧
    table w2 (before ++ stored u2 :: after)%list.
Proof.
  intros Ht Hb Hc Hcreated Hname.
  pose proof (update_course_run w before after course created course_name first
                Ht Hb Hc Hcreated) as H1.
  set (u1 := replacement _ _ _) in H1. set (w1 := World _ _ _) in H1.
  assert (table w1 (before ++ stored u1 :: after)%list) as Ht1 by apply read_after_write.
  assert (named course_name (stored u1)) as Hc1 by (rewrite <- Hname; exact (stored_named u1)).
  pose proof (update_course_run w1 before after (stored u1) created course_name second
                Ht1 Hb Hc1 eq_refl) as H2.
  do 4 eexists. split; [exact H1|]. split; [exact H2|].
  split; [done|]. split; [done|]. apply read_after_write.
Qed.

Lemma update_twice_witness :
  ∃ u1 w1 u2 w2,
    update_course "Algebra" table_body catalogue = (Ok u1, w1) ∧
    update_course "Algebra" geometry_body w1 = (Ok u2, w2) ∧
    u2 = replacement geometry_body (JStr "2024-09-01 00:00:00")
           (clock catalogue (S (ticks catalogue))) ∧
    getitem (stored u2) "created_at" = Ok (JStr "2024-09-01 00:00:00") ∧
    table w2 ([analysis_record] ++ stored u2 :: [algebra_again])%list.
Proof.
  apply (update_twice catalogue [analysis_record] [algebra_again] algebra_record
           (JStr "2024-09-01 00:00:00") "Algebra" table_body geometry_body).
  - reflexivity.
  - other_names.
  - reflexivity.
  - reflexivity.
  - reflexivity.
Defined.
